(** * API_Agente_Database: authentication gateway and connection registry

    A shallow embedding of the Python sources
    - [entities/database_agente.py]   (class [DatabaseAgent])
    - [entities/ask_query_request.py] (class [AskQueryRequest])
    - [entities/model_provider.py]    (class [ModelProvider])
    - [services/user_service.py]      (class [UserService], [get_current_user])
    - [services/database_services.py] (class [DatabaseService])
    - [controllers/controllers.py]    (the FastAPI routes)
    followed by the properties of the specification that were checked
    against it.

    Conventions.  A Python [dict] with string keys is a [gmap string _];
    a function that may raise returns a [result]; module-level and
    class-level mutable objects ([os.environ],
    [DatabaseAgent.CONNECTION_STRINGS], the [Usuarios] table behind the
    SQLAlchemy engine) are fields of one [Process] record that is threaded
    through the request handlers.  A Python [str] is the [string] of the
    bytes of its UTF-8 encoding, so [String.length] counts bytes; a
    surrogate code point, which a [str] may hold although no encoder
    accepts it, is written with the three bytes the same scheme gives it
    (see [codecs]). *)

From Stdlib Require Import ZArith String Ascii List DecimalString.
From stdpp Require Import base option list gmap strings fin_maps.

Local Open Scope string_scope.

(* ===================================================================== *)
(** * Python exceptions and fallible computations *)
(* ===================================================================== *)

(** HTTP status codes, named as in [fastapi.status]. *)
Definition HTTP_200_OK : nat := 200.
Definition HTTP_201_CREATED : nat := 201.
Definition HTTP_400_BAD_REQUEST : nat := 400.
Definition HTTP_401_UNAUTHORIZED : nat := 401.
Definition HTTP_403_FORBIDDEN : nat := 403.
Definition HTTP_404_NOT_FOUND : nat := 404.
Definition HTTP_422_UNPROCESSABLE_ENTITY : nat := 422.
Definition HTTP_500_INTERNAL_SERVER_ERROR : nat := 500.

(** The exception classes the sources raise and catch.  [Exception] stands
    for a bare [Exception(msg)] and for every library error that is only
    ever caught by an [except Exception] clause. *)
Inductive exc : Type :=
| ValueError (msg : string)
| HTTPException (status_code : nat) (detail : string)
| Exception (msg : string).

Inductive result (A : Type) : Type :=
| Ok (a : A)
| Raise (e : exc).
Arguments Ok {A} a.
Arguments Raise {A} e.

(** Sequencing stops at the first exception raised. *)
#[global] Instance result_ret : MRet result := fun _ a => Ok a.
#[global] Instance result_bind : MBind result := fun _ _ k r =>
  match r with
  | Ok a => k a
  | Raise e => Raise e
  end.

#[global] Instance result_fmap : FMap result := fun _ _ f r =>
  match r with
  | Ok a => Ok (f a)
  | Raise e => Raise e
  end.

(** [str(n)] for a status code. *)
Definition str_nat (n : nat) : string := NilEmpty.string_of_uint (Nat.to_uint n).

(** [str(e)].  Starlette's [HTTPException.__str__] prints
    ["{status_code}: {detail}"]; the other classes print their message. *)
Definition str (e : exc) : string :=
  match e with
  | ValueError msg => msg
  | HTTPException sc detail => str_nat sc ++ ": " ++ detail
  | Exception msg => msg
  end.

(** Python truthiness of a [str] and of an [Optional[str]]. *)
Definition truthy (s : string) : bool :=
  match s with
  | EmptyString => false
  | String _ _ => true
  end.

Definition truthy_opt (o : option string) : bool :=
  match o with
  | Some s => truthy s
  | None => false
  end.

(** [", ".join(l)]. *)
Fixpoint join (sep : string) (l : list string) : string :=
  match l with
  | [] => EmptyString
  | [x] => x
  | x :: rest => x ++ sep ++ join sep rest
  end.

(* ===================================================================== *)
(** * Text that cannot be encoded *)
(* ===================================================================== *)

Module codecs.

Definition is_continuation (c : ascii) : bool :=
  ((128 <=? nat_of_ascii c) && (nat_of_ascii c <=? 191))%nat.

(** The code points of a text, read off its bytes: [Some code] for the
    surrogate [code], which is [0xED], a byte of [0xA0..0xBF] and a
    continuation byte, and [None] for every other code point. *)
Fixpoint points (s : string) : list (option nat) :=
  match s with
  | EmptyString => []
  | String a rest =>
      if is_continuation a then points rest
      else
        match rest with
        | String b (String c _) =>
            if ((nat_of_ascii a =? 237) && (160 <=? nat_of_ascii b)
                && (nat_of_ascii b <=? 191) && is_continuation c)%nat
            then Some ((nat_of_ascii a mod 16) * 4096 + (nat_of_ascii b mod 64) * 64
                       + nat_of_ascii c mod 64)%nat
                 :: points rest
            else None :: points rest
        | _ => None :: points rest
        end
  end.

(** The surrogates at the head of the text. *)
Fixpoint run_length (l : list (option nat)) : nat :=
  match l with
  | Some _ :: rest => S (run_length rest)
  | _ => 0
  end.

(** What the UTF-8 encoder reports to its error handler: the position
    of the first surrogate the handler does not take, that surrogate, and
    how many surrogates there are from it on without a break. *)
Fixpoint first_refused (takes : nat -> bool) (l : list (option nat)) (position : nat)
  : option (nat * nat * nat) :=
  match l with
  | [] => None
  | None :: rest => first_refused takes rest (S position)
  | Some code :: rest =>
      if takes code then first_refused takes rest (S position)
      else Some (position, code, S (run_length rest))
  end.

(** The error handlers: [strict] takes no surrogate, [surrogateescape]
    takes [U+DC80..U+DCFF], which stand for single bytes. *)
Definition strict (code : nat) : bool := false.

Definition surrogateescape (code : nat) : bool :=
  (code / 128 =? 441)%nat.

Definition hex_digit (n : nat) : ascii :=
  nth n (list_ascii_of_string "0123456789abcdef") "0"%char.

Definition hex4 (n : nat) : string :=
  String (hex_digit (n / 4096 mod 16))
    (String (hex_digit (n / 256 mod 16))
       (String (hex_digit (n / 16 mod 16))
          (String (hex_digit (n mod 16)) EmptyString)))%nat.

(** [UnicodeEncodeError], a subclass of [ValueError], with the message
    Python gives it. *)
Definition UnicodeEncodeError (position code len : nat) : exc :=
  ValueError
    ("'utf-8' codec can't encode "
     ++ (if (len =? 1)%nat
         then "character '\u" ++ hex4 code ++ "' in position " ++ str_nat position
         else "characters in position " ++ str_nat position ++ "-"
              ++ str_nat (position + len - 1))
     ++ ": surrogates not allowed").

(** The encoder run with an error handler, for what it raises. *)
Definition check (takes : nat -> bool) (s : string) : result unit :=
  match first_refused takes (points s) 0 with
  | None => Ok tt
  | Some (position, code, len) => Raise (UnicodeEncodeError position code len)
  end.

(** [s.encode('utf-8')], and whether it succeeds. *)
Definition encode (s : string) : result string :=
  check strict s;; Ok s.

Definition encodable (s : string) : bool :=
  match check strict s with
  | Ok _ => true
  | Raise _ => false
  end.

(** [os.fsencode(s)] succeeds. *)
Definition fs_encodable (s : string) : bool :=
  match check surrogateescape s with
  | Ok _ => true
  | Raise _ => false
  end.

(** The text holds the character [U+0000]. *)
Definition has_nul (s : string) : bool :=
  existsb (fun c => (nat_of_ascii c =? 0)%nat) (list_ascii_of_string s).

End codecs.

(* ===================================================================== *)
(** * [urllib.parse.quote_plus] *)
(* ===================================================================== *)

Module urllib.

Definition hex_digit (n : nat) : ascii :=
  nth n (list_ascii_of_string "0123456789ABCDEF") "0"%char.

Definition always_safe (c : ascii) : bool :=
  let n := nat_of_ascii c in
  (((65 <=? n) && (n <=? 90)) || ((97 <=? n) && (n <=? 122))
   || ((48 <=? n) && (n <=? 57))
   || (n =? 95) || (n =? 46) || (n =? 45) || (n =? 126))%nat.

(** Unreserved bytes are kept, a space becomes [+], every other byte is
    written [%XX].  The argument is text that encodes (see
    [codecs.encodable]); [quote_plus] raises on any other. *)
Fixpoint quote_plus (s : string) : string :=
  match s with
  | EmptyString => EmptyString
  | String c rest =>
      if always_safe c then String c (quote_plus rest)
      else if (nat_of_ascii c =? 32)%nat then String "+"%char (quote_plus rest)
      else String "%"%char
             (String (hex_digit (nat_of_ascii c / 16)%nat)
                (String (hex_digit (nat_of_ascii c mod 16)%nat) (quote_plus rest)))
  end.

End urllib.

(* ===================================================================== *)
(** * The process environment *)
(* ===================================================================== *)

Module os.

(** [os.getenv(k)] *)
Definition getenv (environ : gmap string string) (k : string) : option string :=
  environ !! k.

(** [not os.getenv(k)]: the variable is unset or set to the empty string. *)
Definition absent (environ : gmap string string) (k : string) : bool :=
  negb (truthy_opt (getenv environ k)).

(** [f"{os.getenv(k)}"]: an unset variable is formatted as [None]. *)
Definition fmt_getenv (environ : gmap string string) (k : string) : string :=
  match getenv environ k with
  | Some v => v
  | None => "None"
  end.

(** [os.environ[k]], raising [KeyError] on an unset variable. *)
Definition environ_get (environ : gmap string string) (k : string) : result string :=
  match environ !! k with
  | Some v => Ok v
  | None => Raise (Exception ("KeyError: '" ++ k ++ "'"))
  end.

(** The values [os.environ] takes (on POSIX): the value is passed through
    [os.fsencode] and then to [putenv], which refuses a NUL. *)
Definition assignable (v : string) : bool :=
  codecs.fs_encodable v && negb (codecs.has_nul v).

(** [os.environ[k] = v], for a key [k] that is a literal of the sources.
    When the assignment raises, the environment is as it was. *)
Definition environ_set (environ : gmap string string) (k v : string)
  : result (gmap string string) :=
  codecs.check codecs.surrogateescape v;;
  if codecs.has_nul v then Raise (ValueError "embedded null byte")
  else Ok (<[k := v]> environ).

(** [load_dotenv()]: variables of the [.env] file are added, variables
    already set in the process keep their value. *)
Definition load_dotenv (environ dotenv : gmap string string) : gmap string string :=
  environ ∪ dotenv.

End os.

(* ===================================================================== *)
(** * Library models: [bcrypt] and [jwt] (PyJWT) *)
(* ===================================================================== *)

(** Both libraries are modelled symbolically: a digest records the salt and
    the bytes of the password it was computed from, a signature records
    the key, the algorithm and the claims it was computed over.  Checking
    a password or a signature is recomputation and comparison, which is
    what the libraries do; two different inputs never collide. *)

Module bcrypt.

(** [bcrypt] reads the first 72 bytes of a password, and releases differ
    on what comes of the rest ([hashpw] and [checkpw] drop it up to 4.3
    and raise [ValueError] from 5.0) and on a NUL byte (refused before
    4.0).  [plain] describes the passwords every release hashes in
    full. *)
Definition max_password_bytes : nat := 72.

Definition plain (password : string) : bool :=
  codecs.encodable password && negb (codecs.has_nul password)
  && (String.length password <=? max_password_bytes)%nat.

Record digest : Type := Digest { salt : string; preimage : string }.

#[global] Instance digest_eq_dec : EqDecision digest.
Proof. solve_decision. Defined.

(** [bcrypt.hashpw(password, salt)], with the bytes past the 72nd
    dropped. *)
Definition hashpw (password salt : string) : digest :=
  Digest salt (substring 0 max_password_bytes password).

(** [bcrypt.checkpw(password, hashed_password)] *)
Definition checkpw (password : string) (hashed_password : digest) : bool :=
  bool_decide (hashpw password (salt hashed_password) = hashed_password).

End bcrypt.

Module jwt.

(** A claim value (scalar JSON). *)
Inductive claim : Type :=
| JNull
| JBool (b : bool)
| JNum (n : Z)
| JStr (s : string).

#[global] Instance claim_eq_dec : EqDecision claim.
Proof. solve_decision. Defined.

(** Python truthiness of a decoded claim; [None] is what [dict.get]
    returns for a missing key. *)
Definition truthy_claim (c : option claim) : bool :=
  match c with
  | None | Some JNull => false
  | Some (JBool b) => b
  | Some (JNum n) => negb (n =? 0)%Z
  | Some (JStr s) => truthy s
  end.

Inductive signature : Type :=
| HMAC (key alg : string) (payload : gmap string claim)
| Forged (bytes : string).

#[global] Instance signature_eq_dec : EqDecision signature.
Proof. solve_decision. Defined.

(** A token is a string; it either splits into the three segments of a
    compact JWS (header, payload, signature) or it does not. *)
Inductive token : Type :=
| Compact (alg : string) (payload : gmap string claim) (sig : signature)
| Malformed (raw : string).

(** What [decode] raises: subclasses of [jwt.InvalidTokenError], and the
    [TypeError] of [int(None)], which is none of them and which PyJWT
    lets through. *)
Inductive error : Type :=
| DecodeError
| InvalidSignatureError
| InvalidAlgorithmError
| ExpiredSignatureError
| ImmatureSignatureError
| InvalidIssuedAtError
| InvalidAudienceError
| TypeError.

#[global] Instance error_eq_dec : EqDecision error.
Proof. solve_decision. Defined.

(** [jwt.encode(payload, key, algorithm=alg)] *)
Definition encode (payload : gmap string claim) (key alg : string) : token :=
  Compact alg payload (HMAC key alg payload).

(** [int(s)] for a string: blanks around, a sign, and decimal digits that
    single underscores may separate.  The digits and blanks are the ASCII
    ones, and a literal of more than 4300 digits is refused. *)
Definition is_space (c : ascii) : bool :=
  let n := nat_of_ascii c in
  (((9 <=? n) && (n <=? 13)) || ((28 <=? n) && (n <=? 32)))%nat.

Definition digit (c : ascii) : option Z :=
  let n := nat_of_ascii c in
  if ((48 <=? n) && (n <=? 57))%nat then Some (Z.of_nat n - 48)%Z else None.

Fixpoint int_digits (s : string) (acc : Z) (after_digit : bool) : option Z :=
  match s with
  | EmptyString => if after_digit then Some acc else None
  | String c rest =>
      match digit c with
      | Some d => int_digits rest (10 * acc + d)%Z true
      | None =>
          if negb after_digit then None
          else if (nat_of_ascii c =? 95)%nat then int_digits rest acc false
          else if forallb is_space (list_ascii_of_string s) then Some acc
          else None
      end
  end.

Fixpoint lstrip (s : string) : string :=
  match s with
  | EmptyString => EmptyString
  | String c rest => if is_space c then lstrip rest else s
  end.

Definition max_str_digits : nat := 4300.

Definition int_str (s : string) : option Z :=
  if (max_str_digits
      <? length (filter (fun c => is_Some (digit c)) (list_ascii_of_string s)))%nat
  then None
  else
    match lstrip s with
    | String c rest =>
        if (nat_of_ascii c =? 45)%nat then Z.opp <$> int_digits rest 0 false
        else if (nat_of_ascii c =? 43)%nat then int_digits rest 0 false
        else int_digits (String c rest) 0 false
    | EmptyString => None
    end.

(** [int(c)] for a claim value: a number is itself, a boolean is 0 or 1,
    a string is read as above or raises [ValueError], and [None] raises
    [TypeError]. *)
Inductive int_result : Type :=
| IntOk (n : Z)
| IntValueError
| IntTypeError.

Definition int (c : claim) : int_result :=
  match c with
  | JNum n => IntOk n
  | JBool b => IntOk (if b then 1 else 0)
  | JStr s =>
      match int_str s with
      | Some n => IntOk n
      | None => IntValueError
      end
  | JNull => IntTypeError
  end.

(** A registered time claim is passed through [int]: a [ValueError] is
    caught and turned into the library's own error [bad], a [TypeError]
    is not caught. *)
Definition numeric (c : claim) (bad : error) : error + Z :=
  match int c with
  | IntOk n => inr n
  | IntValueError => inl bad
  | IntTypeError => inl TypeError
  end.

(** The checks of the registered claims; a claim that is absent is not
    checked.  No audience is passed by the caller, so a token that names
    one is refused. *)
Definition _validate_iat (payload : gmap string claim) (now : Z) : option error :=
  match payload !! "iat" with
  | None => None
  | Some c =>
      match numeric c InvalidIssuedAtError with
      | inl e => Some e
      | inr iat => if (now <? iat)%Z then Some ImmatureSignatureError else None
      end
  end.

Definition _validate_nbf (payload : gmap string claim) (now : Z) : option error :=
  match payload !! "nbf" with
  | None => None
  | Some c =>
      match numeric c DecodeError with
      | inl e => Some e
      | inr nbf => if (now <? nbf)%Z then Some ImmatureSignatureError else None
      end
  end.

Definition _validate_exp (payload : gmap string claim) (now : Z) : option error :=
  match payload !! "exp" with
  | None => None
  | Some c =>
      match numeric c DecodeError with
      | inl e => Some e
      | inr exp => if (exp <=? now)%Z then Some ExpiredSignatureError else None
      end
  end.

Definition _validate_aud (payload : gmap string claim) : option error :=
  if truthy_claim (payload !! "aud") then Some InvalidAudienceError else None.

(** Validation of the registered claims, in PyJWT's order: [iat], [nbf],
    [exp], then [aud]; the first check that raises decides. *)
Definition validate_claims (payload : gmap string claim) (now : Z) : option error :=
  match _validate_iat payload now with
  | Some e => Some e
  | None =>
      match _validate_nbf payload now with
      | Some e => Some e
      | None =>
          match _validate_exp payload now with
          | Some e => Some e
          | None => _validate_aud payload
          end
      end
  end.

(** [jwt.decode(token, key, algorithms=algorithms)] at time [now]: the
    token is split, the algorithm is checked against the allow-list, the
    signature is verified, and only then are the claims validated. *)
Definition decode (t : token) (key : string) (algorithms : list string) (now : Z)
  : error + gmap string claim :=
  match t with
  | Malformed _ => inl DecodeError
  | Compact alg payload sig =>
      if negb (bool_decide (alg ∈ algorithms)) then inl InvalidAlgorithmError
      else if negb (bool_decide (sig = HMAC key alg payload)) then inl InvalidSignatureError
      else match validate_claims payload now with
           | Some e => inl e
           | None => inr payload
           end
  end.

End jwt.

(* ===================================================================== *)
(** * [entities/model_provider.py] *)
(* ===================================================================== *)

Module ModelProvider.

Definition AVAILABLE_MODELS : list string :=
  ["gpt-4o-mini"; "gpt-4-turbo"; "gpt-4"; "gpt-3.5-turbo"].

Definition get_available_models : list string := AVAILABLE_MODELS.

End ModelProvider.

(* ===================================================================== *)
(** * [entities/database_agente.py] *)
(* ===================================================================== *)

(** The external query agent (LangChain, the SQL driver and the LLM
    provider) is an opaque collaborator: every call may raise.
    [ChatOpenAI model key] builds the chat model for [model]; [key] is the
    value of [OPENAI_API_KEY] that the constructor finds in the process
    environment.  [create_agent_executor] stands for the toolkit, the
    prompt pulled from the hub and the ReAct executor built from them, and
    [invoke] for formatting the prompt template with the question, running
    the executor and reading the [output] entry of what it returns. *)
Class QueryAgent : Type := {
  SQLDatabase : Type;
  ChatModel : Type;
  AgentExecutor : Type;
  SQLDatabase_from_uri : string -> result SQLDatabase;
  ChatOpenAI : string -> option string -> result ChatModel;
  create_agent_executor : SQLDatabase -> ChatModel -> result AgentExecutor;
  invoke : AgentExecutor -> string -> result (option string)
}.

(** [k in d] for a dict [d]. *)
Definition dict_in {V : Type} (k : string) (d : gmap string V) : bool :=
  bool_decide (is_Some (d !! k)).

(** [try: body except Exception as e: raise h(e)] and its variants: the
    handler [h] maps the exception caught to the one raised. *)
Definition try_except {A : Type} (body : result A) (h : exc -> exc) : result A :=
  match body with
  | Ok a => Ok a
  | Raise e => Raise (h e)
  end.

Module DatabaseAgent.

(** One predefined entry of [CONNECTION_STRINGS]. *)
Definition predefined (environ : gmap string string)
    (driver server database uid pwd : string) : string :=
  "DRIVER={" ++ os.fmt_getenv environ driver ++ "};"
  ++ "SERVER=" ++ os.fmt_getenv environ server ++ ";"
  ++ "DATABASE=" ++ os.fmt_getenv environ database ++ ";"
  ++ "UID=" ++ os.fmt_getenv environ uid ++ ";"
  ++ "PWD=" ++ os.fmt_getenv environ pwd ++ ";".

(** The class attribute [CONNECTION_STRINGS], evaluated when the class
    body is executed. *)
Definition CONNECTION_STRINGS (environ : gmap string string) : gmap string string :=
  <["Banco de dados 1" :=
      predefined environ "DB_DRIVER" "DB_SERVER" "DB_DATABASE" "DB_USER" "DB_PASSWORD"]>
  (<["Banco de dados 2" :=
      predefined environ "DB_DRIVER_CRM" "DB_SERVER_CRM" "DB_DATABASE_CRM"
                 "DB_USER_CRM" "DB_PASSWORD_CRM"]> ∅).

Definition _validate_inputs (conns : gmap string string) (db_name model : string)
  : result unit :=
  if negb (truthy db_name) || negb (dict_in db_name conns)
  then Raise (ValueError ("Banco de dados '" ++ db_name ++ "' não encontrado"))
  else if negb (truthy model)
  then Raise (ValueError "Modelo de linguagem não especificado")
  else Ok tt.

Definition _build_connection_uri (conns : gmap string string) (db_name : string)
  : result string :=
  match conns !! db_name with
  | Some conn_str => Ok ("mssql+pyodbc:///?odbc_connect=" ++ urllib.quote_plus conn_str)
  | None => Raise (Exception ("KeyError: '" ++ db_name ++ "'"))
  end.

Definition add_connection (conns : gmap string string)
    (db_name connection_string : string) : result (gmap string string) :=
  if dict_in db_name conns
  then Raise (ValueError ("Banco de dados '" ++ db_name ++ "' já existe"))
  else Ok (<[db_name := connection_string]> conns).

Definition remove_connection (conns : gmap string string) (db_name : string)
  : result (gmap string string) :=
  if negb (dict_in db_name conns)
  then Raise (ValueError ("Banco de dados '" ++ db_name ++ "' não encontrado"))
  else Ok (delete db_name conns).

Section agent.
Context `{QA : QueryAgent}.

(** The attributes of an instance once [__init__] has returned. *)
Record t : Type := Build {
  db_name : string;
  model_name : string;
  api_key : option string;
  uri : string;
  db : SQLDatabase;
  model : ChatModel;
  agent_executor : AgentExecutor
}.

(** The assignment [os.environ['OPENAI_API_KEY'] = self.api_key] of
    [_setup_environment], guarded by [if self.api_key]. *)
Definition export_api_key (api_key : option string) (environ : gmap string string)
  : result (gmap string string) :=
  match api_key with
  | Some k => if truthy k then os.environ_set environ "OPENAI_API_KEY" k else Ok environ
  | None => Ok environ
  end.

(** [_setup_environment]: returns [uri], [db] and [model] together with
    [os.environ] as the call leaves it; the assignment to the
    environment comes first and, once made, stays when a later line
    raises. *)
Definition _setup_environment (conns : gmap string string)
    (db_name model_name : string) (api_key : option string)
    (environ : gmap string string)
  : result (string * SQLDatabase * ChatModel) * gmap string string :=
  match export_api_key api_key environ with
  | Raise e => (Raise e, environ)
  | Ok environ' =>
      (uri ← _build_connection_uri conns db_name;
       db ← SQLDatabase_from_uri uri;
       model ← ChatOpenAI model_name (os.getenv environ' "OPENAI_API_KEY");
       Ok (uri, db, model),
       environ')
  end.

Definition _initialize_agent (db : SQLDatabase) (model : ChatModel)
  : result AgentExecutor :=
  create_agent_executor db model.

Definition init_error (e : exc) : exc :=
  HTTPException HTTP_500_INTERNAL_SERVER_ERROR
    ("Erro ao inicializar agente de banco de dados: " ++ str e).

(** [DatabaseAgent(db_name, model, api_key)] *)
Definition __init__ (conns : gmap string string) (environ : gmap string string)
    (db_name model : string) (api_key : option string)
  : result t * gmap string string :=
  match _validate_inputs conns db_name model with
  | Raise e => (Raise (init_error e), environ)
  | Ok _ =>
      let '(r, environ') := _setup_environment conns db_name model api_key environ in
      (try_except
         ('(uri, db, m) ← r;
          executor ← _initialize_agent db m;
          Ok (Build db_name model api_key uri db m executor))
         init_error,
       environ')
  end.

Definition ask_question (self : t) (question : string) : result string :=
  try_except
    (if negb (truthy question) then Raise (ValueError "Pergunta não pode estar vazia")
     else
       output ← invoke (agent_executor self) question;
       Ok (default "Não foi possível obter a resposta" output))
    (fun e => HTTPException HTTP_500_INTERNAL_SERVER_ERROR
                ("Erro ao processar pergunta: " ++ str e)).

End agent.

End DatabaseAgent.

(* ===================================================================== *)
(** * The credential table behind the SQLAlchemy engine *)
(* ===================================================================== *)

Module sql.

Record row : Type := Row { username : string; password_hash : bcrypt.digest }.

(** The database the engine points at: the rows of [Usuarios], whether a
    connection can be opened at all, and what the server's [=] answers
    for a stored username and the one a statement is given.  The sources
    leave that comparison to the server, whose collation decides it. *)
Record engine : Type := Engine {
  Usuarios : list row;
  reachable : bool;
  matches : string -> string -> bool
}.

(** The engine with another table. *)
Definition with_rows (eng : engine) (rows : list row) : engine :=
  Engine rows (reachable eng) (matches eng).

(** The comparison is an equivalence, as [=] is under every collation. *)
Definition equivalence (eng : engine) : Prop :=
  (forall a, matches eng a a = true)
  /\ (forall a b, matches eng a b = true -> matches eng b a = true)
  /\ (forall a b c,
        matches eng a b = true -> matches eng b c = true -> matches eng a c = true).

(** A comparison in the manner of SQL Server's default collation, on
    ASCII names: letters are compared without case and trailing spaces
    are ignored. *)
Definition lower (c : ascii) : ascii :=
  let n := nat_of_ascii c in
  if ((65 <=? n) && (n <=? 90))%nat then ascii_of_nat (n + 32) else c.

Fixpoint fold_name (s : string) : string :=
  match s with
  | EmptyString => EmptyString
  | String c rest =>
      match fold_name rest with
      | EmptyString =>
          if (nat_of_ascii c =? 32)%nat then EmptyString
          else String (lower c) EmptyString
      | folded => String (lower c) folded
      end
  end.

Definition case_insensitive (stored given : string) : bool :=
  String.eqb (fold_name stored) (fold_name given).

Definition connect (eng : engine) : result (list row) :=
  if reachable eng then Ok (Usuarios eng)
  else Raise (Exception "OperationalError: unable to connect").

(** [SELECT username, password_hash FROM Usuarios WHERE username = :u]
    followed by [fetchone()]: the first row the server matches. *)
Definition fetchone (same : string -> string -> bool) (rows : list row) (u : string)
  : option row :=
  head (filter (fun r => same (username r) u = true) rows).

(** Modelled from the spec: the schema of [Usuarios] is not part of the
    sources; the spec makes [username] its primary key, so an insert of a
    username that is already present is rejected by the store. *)
Definition insert (same : string -> string -> bool) (rows : list row) (r : row)
  : result (list row) :=
  match fetchone same rows (username r) with
  | Some _ => Raise (Exception "IntegrityError: duplicate key")
  | None => Ok (rows ++ [r])%list
  end.

(** [UPDATE Usuarios SET password_hash = :h WHERE username = :u]: the
    table after the update and [rowcount]. *)
Definition update (same : string -> string -> bool) (rows : list row) (u : string)
    (h : bcrypt.digest)
  : list row * nat :=
  (map (fun r => if same (username r) u then Row (username r) h else r) rows,
   length (filter (fun r => same (username r) u = true) rows)).

End sql.

(* ===================================================================== *)
(** * [services/user_service.py] *)
(* ===================================================================== *)

Definition ALGORITHM : string := "HS256".

Definition required_env_vars : list string :=
  ["DB_DRIVER"; "DB_SERVER"; "DB_DATABASE"; "DB_TRUSTED_CONNECTION"].

(** What the module body of [user_service.py] leaves behind. *)
Record user_service_globals : Type := {
  SECRET_KEY : string;
  users_db_uri : string
}.

(** The module body, run on the environment that [load_dotenv()] has
    already completed. *)
Definition user_service_module (environ : gmap string string)
  : result user_service_globals :=
  let secret := os.getenv environ "SECRET_KEY" in
  if negb (truthy_opt secret)
  then Raise (ValueError "SECRET_KEY não foi definido corretamente nas variáveis de ambiente!")
  else
    let missing_vars := filter (fun var => os.absent environ var = true) required_env_vars in
    match missing_vars with
    | _ :: _ =>
        Raise (ValueError ("Variáveis de ambiente ausentes: " ++ join ", " missing_vars))
    | [] =>
        driver ← os.environ_get environ "DB_DRIVER";
        server ← os.environ_get environ "DB_SERVER";
        database ← os.environ_get environ "DB_DATABASE";
        trusted ← os.environ_get environ "DB_TRUSTED_CONNECTION";
        let conn_str_users :=
          "DRIVER={" ++ driver ++ "};"
          ++ "SERVER=" ++ server ++ ";"
          ++ "DATABASE=" ++ database ++ ";"
          ++ "Trusted_Connection=" ++ trusted ++ ";" in
        Ok {| SECRET_KEY := default EmptyString secret;
              users_db_uri :=
                "mssql+pyodbc:///?odbc_connect=" ++ urllib.quote_plus conn_str_users |}
    end.

Module UserService.

Section service.
(** The module-level [SECRET_KEY]. *)
Variable secret : string.

(** [salt] is what [bcrypt.gensalt()] draws.  The digest of line 78 is
    computed before the [try] and is taken as computed, which it is for
    the passwords that [bcrypt.plain] describes. *)
Definition register_user (eng : sql.engine) (salt : string)
    (username password confirm_password : string)
  : result unit * sql.engine :=
  if negb (bool_decide (password = confirm_password))
  then (Raise (ValueError "As senhas não coincidem."), eng)
  else
    let hashed_password := bcrypt.hashpw password salt in
    match (rows ← sql.connect eng;
           sql.insert (sql.matches eng) rows (sql.Row username hashed_password)) with
    | Ok rows' => (Ok tt, sql.with_rows eng rows')
    | Raise e => (Raise (Exception ("Erro ao cadastrar usuário: " ++ str e)), eng)
    end.

Definition create_access_token (data : gmap string jwt.claim) : jwt.token :=
  jwt.encode data secret ALGORITHM.

Record auth_result : Type := {
  access_token : jwt.token;
  token_type : string
}.

(** The token is issued for the username of the row, as the server
    returned it.  Line 114 encodes the password inside the [try], after a
    row was found; the [UnicodeEncodeError] it may raise is a
    [ValueError]. *)
Definition login_user (eng : sql.engine) (username password : string)
  : result auth_result :=
  try_except
    (rows ← sql.connect eng;
     match sql.fetchone (sql.matches eng) rows username with
     | None => Raise (ValueError "Usuário ou senha incorretos.")
     | Some user_data =>
         let db_username := sql.username user_data in
         let hashed_password := sql.password_hash user_data in
         encoded ← codecs.encode password;
         if negb (bcrypt.checkpw encoded hashed_password)
         then Raise (ValueError "Usuário ou senha incorretos.")
         else
           let access_token :=
             create_access_token {[ "username" := jwt.JStr db_username ]} in
           Ok {| access_token := access_token; token_type := "bearer" |}
     end)
    (fun e => match e with
              | ValueError _ => e
              | _ => Exception ("Erro ao validar login: " ++ str e)
              end).

(** As in [register_user], the digest of line 141 is computed before
    the [try] and taken as computed. *)
Definition reset_password (eng : sql.engine) (salt : string)
    (username new_password confirm_password : string)
  : result unit * sql.engine :=
  if negb (bool_decide (new_password = confirm_password))
  then (Raise (ValueError "As senhas não coincidem."), eng)
  else
    let hashed_password := bcrypt.hashpw new_password salt in
    match sql.connect eng with
    | Raise e => (Raise (Exception ("Erro ao atualizar senha: " ++ str e)), eng)
    | Ok rows =>
        let '(rows', rowcount) :=
          sql.update (sql.matches eng) rows username hashed_password in
        let eng' := sql.with_rows eng rows' in
        if (rowcount =? 0)%nat
        then (Raise (ValueError "Usuário não encontrado."), eng')
        else (Ok tt, eng')
    end.

Definition verify_token (token : jwt.token) (now : Z) : result jwt.claim :=
  match jwt.decode token secret [ALGORITHM] now with
  | inr payload =>
      match payload !! "username" with
      | Some username =>
          if negb (jwt.truthy_claim (Some username))
          then Raise (HTTPException HTTP_401_UNAUTHORIZED
                        "Token inválido. Usuário não encontrado.")
          else Ok username
      | None =>
          Raise (HTTPException HTTP_401_UNAUTHORIZED
                   "Token inválido. Usuário não encontrado.")
      end
  | inl jwt.ExpiredSignatureError =>
      Raise (HTTPException HTTP_401_UNAUTHORIZED "Token expirado.")
  | inl jwt.TypeError =>
      Raise (Exception ("int() argument must be a string, a bytes-like object "
                        ++ "or a real number, not 'NoneType'"))
  | inl _ =>
      Raise (HTTPException HTTP_401_UNAUTHORIZED "Token inválido.")
  end.

End service.

End UserService.

(** [bearer_scheme = HTTPBearer()], with [auto_error] left on: a request
    that carries no bearer credentials is refused by the scheme itself. *)
Definition bearer_scheme (authorization : option jwt.token) : result (option jwt.token) :=
  match authorization with
  | Some token => Ok (Some token)
  | None => Raise (HTTPException HTTP_403_FORBIDDEN "Not authenticated")
  end.

(** The dependency [get_current_user]; [credentials] is what
    [Security(bearer_scheme)] handed over. *)
Definition get_current_user (secret : string) (credentials : option jwt.token) (now : Z)
  : result jwt.claim :=
  match credentials with
  | None => Raise (HTTPException HTTP_401_UNAUTHORIZED "Token não fornecido.")
  | Some token =>
      try_except (UserService.verify_token secret token now)
        (fun e => match e with
                  | HTTPException _ _ => e
                  | _ => HTTPException HTTP_401_UNAUTHORIZED
                           ("Erro na verificação do token: " ++ str e)
                  end)
  end.

(* ===================================================================== *)
(** * [services/database_services.py] *)
(* ===================================================================== *)

Module DatabaseService.

Definition DRIVER_NAME : string := "ODBC Driver 17 for SQL Server".

Definition validate_connection_params (conns : gmap string string)
    (db_name server database user password : string) : result unit :=
  if negb (truthy db_name) then Raise (ValueError "Nome do banco de dados é obrigatório")
  else if negb (truthy server) then Raise (ValueError "Servidor é obrigatório")
  else if negb (truthy database) then Raise (ValueError "Database é obrigatório")
  else if negb (truthy user) then Raise (ValueError "Usuário é obrigatório")
  else if negb (truthy password) then Raise (ValueError "Senha é obrigatória")
  else if dict_in db_name conns
  then Raise (ValueError ("Já existe um banco de dados cadastrado com o nome '"
                            ++ db_name ++ "'"))
  else Ok tt.

(** The connection string that [create_database] stores. *)
Definition connection_string (server database user password : string) : string :=
  "DRIVER={" ++ DRIVER_NAME ++ "};"
  ++ "SERVER=" ++ server ++ ";"
  ++ "DATABASE=" ++ database ++ ";"
  ++ "UID=" ++ user ++ ";"
  ++ "PWD=" ++ password ++ ";".

(** Returns the dict [{"message": ...}] and the registry as the call
    leaves it. *)
Definition create_database (conns : gmap string string)
    (db_name server database user password : string)
  : result (list (string * string)) * gmap string string :=
  let body :=
    validate_connection_params conns db_name server database user password;;
    DatabaseAgent.add_connection conns db_name
      (connection_string server database user password) in
  match body with
  | Ok conns' =>
      (Ok [("message", "Banco de dados '" ++ db_name ++ "' criado com sucesso.")], conns')
  | Raise (ValueError ve) =>
      (Raise (HTTPException HTTP_400_BAD_REQUEST ve), conns)
  | Raise e =>
      (Raise (HTTPException HTTP_500_INTERNAL_SERVER_ERROR
                ("Erro ao criar conexão com banco de dados: " ++ str e)), conns)
  end.

Definition delete_database (conns : gmap string string) (db_name : string)
  : result (list (string * string)) * gmap string string :=
  let body :=
    if negb (truthy db_name) then Raise (ValueError "Nome do banco de dados é obrigatório")
    else if negb (dict_in db_name conns)
    then Raise (ValueError ("Banco de dados '" ++ db_name ++ "' não encontrado"))
    else Ok (delete db_name conns) in
  match body with
  | Ok conns' =>
      (Ok [("message", "Banco de dados '" ++ db_name ++ "' removido com sucesso.")], conns')
  | Raise (ValueError ve) =>
      (Raise (HTTPException HTTP_404_NOT_FOUND ve), conns)
  | Raise e =>
      (Raise (HTTPException HTTP_500_INTERNAL_SERVER_ERROR
                ("Erro ao remover banco de dados: " ++ str e)), conns)
  end.

Definition get_connection_string (conns : gmap string string) (db_name : string)
  : result string :=
  let body :=
    if negb (truthy db_name) then Raise (ValueError "Nome do banco de dados é obrigatório")
    else
      match conns !! db_name with
      | None => Raise (ValueError ("Banco de dados '" ++ db_name ++ "' não encontrado"))
      | Some conn_str => Ok conn_str
      end in
  try_except body
    (fun e => match e with
              | ValueError ve => HTTPException HTTP_404_NOT_FOUND ve
              | _ => e
              end).

End DatabaseService.

(* ===================================================================== *)
(** * Request models *)
(* ===================================================================== *)

Module RegisterRequest.
Record t : Type := {
  username : string;
  password : string;
  confirm_password : string
}.
End RegisterRequest.

(** [entities/login_request.py] is not among the sources; the fields are
    the two that the [login] route reads. *)
Module LoginRequest.
Record t : Type := {
  username : string;
  password : string
}.
End LoginRequest.

Module ResetPasswordRequest.
Record t : Type := {
  username : string;
  password : string;
  confirm_password : string
}.
End ResetPasswordRequest.

Module AskQueryRequest.

(** The JSON body as sent: [db_name], [model] and [api_key] are optional. *)
Record body : Type := {
  body_question : string;
  body_db_name : option string;
  body_model : option string;
  body_api_key : option string
}.

(** The validated model. *)
Record t : Type := {
  question : string;
  db_name : string;
  model : string;
  api_key : option string
}.

Definition validate_db_name (conns : gmap string string) (value : string) : result string :=
  if negb (dict_in value conns)
  then Raise (ValueError ("Banco de dados inválido. Opções disponíveis: "
                            ++ join ", " (map fst (map_to_list conns))))
  else Ok value.

(** The [pattern] of the field accepts every member of the allow-list,
    so a value passes both checks exactly when it is a member. *)
Definition validate_model (value : string) : result string :=
  if negb (bool_decide (value ∈ ModelProvider.AVAILABLE_MODELS))
  then Raise (ValueError ("Modelo inválido. Opções disponíveis: "
                            ++ join ", " ModelProvider.AVAILABLE_MODELS))
  else Ok value.

(** Construction of the model from the body: a field that is present is
    validated, a field that is absent takes its default unvalidated. *)
Definition parse (conns : gmap string string) (b : body) : result t :=
  db ← match body_db_name b with
       | Some v => validate_db_name conns v
       | None => Ok "CRM Reports"
       end;
  m ← match body_model b with
      | Some v => validate_model v
      | None => Ok (default EmptyString (head ModelProvider.AVAILABLE_MODELS))
      end;
  Ok {| question := body_question b; db_name := db; model := m;
        api_key := body_api_key b |}.

End AskQueryRequest.

(* ===================================================================== *)
(** * The running process *)
(* ===================================================================== *)

(** Everything the request handlers read or mutate. *)
Record Process : Type := {
  environ : gmap string string;
  globals : user_service_globals;
  CONNECTION_STRINGS : gmap string string;
  engine : sql.engine
}.

Definition with_environ (p : Process) (e : gmap string string) : Process :=
  {| environ := e; globals := globals p;
     CONNECTION_STRINGS := CONNECTION_STRINGS p; engine := engine p |}.

Definition with_connections (p : Process) (c : gmap string string) : Process :=
  {| environ := environ p; globals := globals p;
     CONNECTION_STRINGS := c; engine := engine p |}.

Definition with_engine (p : Process) (eng : sql.engine) : Process :=
  {| environ := environ p; globals := globals p;
     CONNECTION_STRINGS := CONNECTION_STRINGS p; engine := eng |}.

(** Start-up: [main.py] imports [controllers], which imports the entities
    (the class body of [DatabaseAgent] reads the environment as the
    process was given it) and then [services.user_service] (which calls
    [load_dotenv()] and checks its variables).  Any exception raised on
    the way aborts the import, and the server never starts. *)
Definition startup (environ dotenv : gmap string string) (db : sql.engine)
  : result Process :=
  let conns := DatabaseAgent.CONNECTION_STRINGS environ in
  let environ' := os.load_dotenv environ dotenv in
  g ← user_service_module environ';
  Ok {| environ := environ'; globals := g; CONNECTION_STRINGS := conns; engine := db |}.

(* ===================================================================== *)
(** * [controllers/controllers.py] *)
(* ===================================================================== *)

(** What a path operation returns, and what is sent as a response body:
    a JSON object or a list of strings.  The value of an entry is a
    string, a token, or again a dict of strings. *)
Inductive value : Type :=
| VStr (s : string)
| VToken (t : jwt.token)
| VDict (entries : list (string * string)).

Inductive content : Type :=
| CDict (entries : list (string * value))
| CList (items : list string).

Record Response : Type := {
  status_code : nat;
  body : content
}.

Module controllers.

Section routes.
Context `{QA : QueryAgent}.

(** [except ValueError] answered with [on_value_error], [except
    Exception] with 500 and a prefixed message. *)
Definition handle (on_value_error : nat) (prefix : string) (e : exc) : exc :=
  match e with
  | ValueError ve => HTTPException on_value_error ve
  | _ => HTTPException HTTP_500_INTERNAL_SERVER_ERROR (prefix ++ str e)
  end.

Definition register_user (p : Process) (salt : string) (req : RegisterRequest.t)
  : result content * Process :=
  let '(r, eng) :=
    UserService.register_user (engine p) salt
      (RegisterRequest.username req) (RegisterRequest.password req)
      (RegisterRequest.confirm_password req) in
  (try_except (r;; Ok (CDict [("message", VStr "Usuário cadastrado com sucesso")]))
     (handle HTTP_400_BAD_REQUEST "Erro interno ao cadastrar usuário: "),
   with_engine p eng).

Definition login (p : Process) (req : LoginRequest.t) : result content * Process :=
  (try_except
     (auth_result ← UserService.login_user (SECRET_KEY (globals p)) (engine p)
                      (LoginRequest.username req) (LoginRequest.password req);
      Ok (CDict [("access_token", VToken (UserService.access_token auth_result))]))
     (handle HTTP_401_UNAUTHORIZED "Erro interno ao realizar login: "),
   p).

Definition reset_password (p : Process) (salt : string) (req : ResetPasswordRequest.t)
  : result content * Process :=
  let '(r, eng) :=
    UserService.reset_password (engine p) salt
      (ResetPasswordRequest.username req) (ResetPasswordRequest.password req)
      (ResetPasswordRequest.confirm_password req) in
  (try_except (r;; Ok (CDict [("message", VStr "Senha atualizada com sucesso")]))
     (handle HTTP_400_BAD_REQUEST "Erro interno ao resetar senha: "),
   with_engine p eng).

Definition create_database (p : Process)
    (db_name server database user password : string) : result content * Process :=
  let '(r, conns) :=
    DatabaseService.create_database (CONNECTION_STRINGS p)
      db_name server database user password in
  (try_except (message ← r; Ok (CDict [("message", VDict message)]))
     (fun e => HTTPException HTTP_500_INTERNAL_SERVER_ERROR
                 ("Erro ao criar banco de dados: " ++ str e)),
   with_connections p conns).

(** The names are listed in the order of the map, not in the order in
    which they were registered. *)
Definition get_available_databases (p : Process) : result content * Process :=
  (Ok (CList (map fst (map_to_list (CONNECTION_STRINGS p)))), p).

Definition delete_database (p : Process) (db_name : string) : result content * Process :=
  let '(r, conns) := DatabaseService.delete_database (CONNECTION_STRINGS p) db_name in
  (try_except (message ← r; Ok (CDict [("message", VDict message)]))
     (handle HTTP_404_NOT_FOUND "Erro ao deletar banco de dados: "),
   with_connections p conns).

Definition get_available_models (p : Process) : result content * Process :=
  (Ok (CList ModelProvider.get_available_models), p).

Definition ask_question (p : Process) (req : AskQueryRequest.t)
  : result content * Process :=
  let '(agent, environ') :=
    DatabaseAgent.__init__ (CONNECTION_STRINGS p) (environ p)
      (AskQueryRequest.db_name req) (AskQueryRequest.model req)
      (AskQueryRequest.api_key req) in
  (try_except
     (a ← agent;
      answer ← DatabaseAgent.ask_question a (AskQueryRequest.question req);
      Ok (CDict [("answer", VStr answer)]))
     (fun e => HTTPException HTTP_500_INTERNAL_SERVER_ERROR
                 ("Erro ao consultar o banco de dados: " ++ str e)),
   with_environ p environ').

End routes.

End controllers.

(* ===================================================================== *)
(** * The router: decorators of [controllers.py] as FastAPI applies them *)
(* ===================================================================== *)

Module router.

(** One constructor per route, carrying the parameters of its path
    operation: a request whose body and query string FastAPI could bind
    to them.  A request it cannot bind (a field or a parameter that is
    missing or of another type, a body that is not JSON) is answered 422
    by the framework on every route, without the path operation being
    entered, and is not among these. *)
Inductive Call : Type :=
| POST_register (req : RegisterRequest.t)
| POST_login (req : LoginRequest.t)
| POST_reset_password (req : ResetPasswordRequest.t)
| POST_create_database (db_name server database user password : string)
| GET_databases
| DELETE_delete_database (db_name : string)
| GET_models
| POST_ask (req : AskQueryRequest.body).

(** An inbound request: the bearer token of its [Authorization] header
    if it has one, the route called, the time at which it is served and
    the salt that [bcrypt.gensalt()] draws while it is served. *)
Record Request : Type := {
  authorization : option jwt.token;
  call : Call;
  now : Z;
  salt : string
}.

Inductive Depends : Type :=
| Depends_get_current_user.

(** The response models of the decorators.  [entities/token_response.py]
    and [entities/ask_query_response.py] are not among the sources; each
    model has the one field its route constructs it with. *)
Inductive ResponseModel : Type :=
| Dict_str_str
| List_str
| TokenResponse
| AskQueryResponse.

(** The [dependencies=[...]] argument of each decorator. *)
Definition dependencies (c : Call) : list Depends :=
  match c with
  | POST_register _ => [Depends_get_current_user]
  | POST_login _ => []
  | POST_reset_password _ => [Depends_get_current_user]
  | POST_create_database _ _ _ _ _ => [Depends_get_current_user]
  | GET_databases => [Depends_get_current_user]
  | DELETE_delete_database _ => [Depends_get_current_user]
  | GET_models => [Depends_get_current_user]
  | POST_ask _ => [Depends_get_current_user]
  end.

(** The [status_code=...] argument of each decorator. *)
Definition success_status (c : Call) : nat :=
  match c with
  | POST_register _ => HTTP_201_CREATED
  | POST_login _ => HTTP_200_OK
  | POST_reset_password _ => HTTP_200_OK
  | POST_create_database _ _ _ _ _ => HTTP_201_CREATED
  | GET_databases => HTTP_200_OK
  | DELETE_delete_database _ => HTTP_200_OK
  | GET_models => HTTP_200_OK
  | POST_ask _ => HTTP_200_OK
  end.

(** The [response_model=...] argument of each decorator. *)
Definition response_model (c : Call) : ResponseModel :=
  match c with
  | POST_register _ => Dict_str_str
  | POST_login _ => TokenResponse
  | POST_reset_password _ => Dict_str_str
  | POST_create_database _ _ _ _ _ => Dict_str_str
  | GET_databases => List_str
  | DELETE_delete_database _ => Dict_str_str
  | GET_models => List_str
  | POST_ask _ => AskQueryResponse
  end.

Definition is_str (v : value) : bool :=
  match v with
  | VStr _ => true
  | _ => false
  end.

(** Whether a returned value fits the response model of its route. *)
Definition fits (m : ResponseModel) (c : content) : bool :=
  match m, c with
  | Dict_str_str, CDict entries => forallb (fun kv => is_str (snd kv)) entries
  | List_str, CList _ => true
  | TokenResponse, CDict [(k, VToken _)] => bool_decide (k = "access_token")
  | AskQueryResponse, CDict [(k, VStr _)] => bool_decide (k = "answer")
  | _, _ => false
  end.

Definition error_response (e : exc) : Response :=
  match e with
  | HTTPException sc detail => {| status_code := sc; body := CDict [("detail", VStr detail)] |}
  | _ => {| status_code := HTTP_500_INTERNAL_SERVER_ERROR;
            body := CDict [("detail", VStr "Internal Server Error")] |}
  end.

Section app.
Context `{QA : QueryAgent}.

Definition solve_dependency (d : Depends) (p : Process) (r : Request) : result unit :=
  match d with
  | Depends_get_current_user =>
      credentials ← bearer_scheme (authorization r);
      get_current_user (SECRET_KEY (globals p)) credentials (now r);; Ok tt
  end.

Fixpoint solve_dependencies (ds : list Depends) (p : Process) (r : Request)
  : result unit :=
  match ds with
  | [] => Ok tt
  | d :: rest => solve_dependency d p r;; solve_dependencies rest p r
  end.

(** The path operation of the route called.  The body of [/ask] is
    parsed into its model first; a body that the model refuses is
    answered 422 and the operation is not entered. *)
Definition path_operation (p : Process) (r : Request) : result content * Process :=
  match call r with
  | POST_register req => controllers.register_user p (salt r) req
  | POST_login req => controllers.login p req
  | POST_reset_password req => controllers.reset_password p (salt r) req
  | POST_create_database db_name server database user password =>
      controllers.create_database p db_name server database user password
  | GET_databases => controllers.get_available_databases p
  | DELETE_delete_database db_name => controllers.delete_database p db_name
  | GET_models => controllers.get_available_models p
  | POST_ask b =>
      match AskQueryRequest.parse (CONNECTION_STRINGS p) b with
      | Ok req => controllers.ask_question p req
      | Raise e => (Raise (HTTPException HTTP_422_UNPROCESSABLE_ENTITY (str e)), p)
      end
  end.

(** The response to what the path operation returned or raised; a
    returned value that does not fit the response model is an
    internal error. *)
Definition respond (c : Call) (r : result content) : Response :=
  match r with
  | Ok v =>
      if fits (response_model c) v
      then {| status_code := success_status c; body := v |}
      else error_response (Exception "ResponseValidationError")
  | Raise e => error_response e
  end.

(** One request: the dependencies are solved first, and the path
    operation only runs when none of them raised. *)
Definition serve (p : Process) (r : Request) : Response * Process :=
  match solve_dependencies (dependencies (call r)) p r with
  | Raise e => (error_response e, p)
  | Ok _ =>
      let '(res, p') := path_operation p r in
      (respond (call r) res, p')
  end.

(** A sequence of requests served one after the other. *)
Fixpoint serve_all (p : Process) (rs : list Request) : list Response * Process :=
  match rs with
  | [] => ([], p)
  | r :: rest =>
      let '(resp, p') := serve p r in
      let '(resps, p'') := serve_all p' rest in
      (resp :: resps, p'')
  end.

End app.

End router.

(* ===================================================================== *)
(** * The Connection Registry, under the names of the specification *)
(* ===================================================================== *)

Module Registry.

(** [add] is [DatabaseService.create_database], [remove] is
    [DatabaseService.delete_database], [resolve] is
    [DatabaseService.get_connection_string] and [names] is what the
    listing route reads. *)
Inductive Op : Type :=
| add (name server database user password : string)
| remove (name : string)
| resolve (name : string).

Inductive Reply : Type :=
| Confirmation (message : list (string * string))
| Descriptor (connection_string : string).

Definition step (conns : gmap string string) (op : Op)
  : result Reply * gmap string string :=
  match op with
  | add name server database user password =>
      let '(r, conns') :=
        DatabaseService.create_database conns name server database user password in
      (Confirmation <$> r, conns')
  | remove name =>
      let '(r, conns') := DatabaseService.delete_database conns name in
      (Confirmation <$> r, conns')
  | resolve name =>
      (Descriptor <$> DatabaseService.get_connection_string conns name, conns)
  end.

(** The registry after a sequence of operations, whatever each of them
    answered. *)
Fixpoint run (conns : gmap string string) (ops : list Op) : gmap string string :=
  match ops with
  | [] => conns
  | op :: rest => run (snd (step conns op)) rest
  end.

Definition names (conns : gmap string string) : list string :=
  map fst (map_to_list conns).

(** The three error kinds of the registry, as the service raises them:
    both refusals of [add] are a [ValueError] turned into status 400 and
    differ by their message. *)
Definition required_messages : list string :=
  ["Nome do banco de dados é obrigatório"; "Servidor é obrigatório";
   "Database é obrigatório"; "Usuário é obrigatório"; "Senha é obrigatória"].

Definition ValidationError (e : exc) : Prop :=
  exists msg, In msg required_messages /\ e = HTTPException HTTP_400_BAD_REQUEST msg.

(** Some field of the list is the empty string. *)
Definition blank (fields : list string) : bool :=
  existsb (fun s => negb (truthy s)) fields.

Definition ConflictError (name : string) (e : exc) : Prop :=
  e = HTTPException HTTP_400_BAD_REQUEST
        ("Já existe um banco de dados cadastrado com o nome '" ++ name ++ "'").

Definition NotFoundError (e : exc) : Prop :=
  exists msg, e = HTTPException HTTP_404_NOT_FOUND msg.

End Registry.

(* ===================================================================== *)
(** * Vocabulary of the specification for credentials and tokens *)
(* ===================================================================== *)

(** No stored credential has this username: the server matches no row. *)
Definition unknown_username (eng : sql.engine) (username : string) : Prop :=
  sql.fetchone (sql.matches eng) (sql.Usuarios eng) username = None.

(** A credential is stored for this username and the password, once
    encoded, does not match its hash. *)
Definition wrong_password (eng : sql.engine) (username password : string) : Prop :=
  exists row,
    sql.fetchone (sql.matches eng) (sql.Usuarios eng) username = Some row /\
    codecs.encodable password = true /\
    bcrypt.checkpw password (sql.password_hash row) = false.

(** The token was signed with this secret and the algorithm of the
    service. *)
Definition well_signed (secret : string) (t : jwt.token) : Prop :=
  exists payload, t = jwt.encode payload secret ALGORITHM.

(** The payload has the time claim [key], and [int] reads it as a time
    that is not after [now]. *)
Definition not_after (payload : gmap string jwt.claim) (key : string) (now : Z) : Prop :=
  exists c n, payload !! key = Some c /\ jwt.int c = jwt.IntOk n /\ (n <= now)%Z.



(** One of the time claims [decode] validates is [null]. *)
Definition null_time_claim (t : jwt.token) : Prop :=
  exists alg payload sig key,
    t = jwt.Compact alg payload sig /\
    key ∈ ["iat"; "nbf"; "exp"] /\
    payload !! key = Some jwt.JNull.

(** The [TypeError] that escapes [verify_token]. *)
Definition token_type_error : exc :=
  Exception ("int() argument must be a string, a bytes-like object "
             ++ "or a real number, not 'NoneType'").

(** The three errors [verify_token] raises itself. *)
Definition token_expired : exc :=
  HTTPException HTTP_401_UNAUTHORIZED "Token expirado.".

Definition token_invalid : exc :=
  HTTPException HTTP_401_UNAUTHORIZED "Token inválido.".

Definition token_without_user : exc :=
  HTTPException HTTP_401_UNAUTHORIZED "Token inválido. Usuário não encontrado.".

(** The error of a refused login. *)
Definition invalid_credentials : exc := ValueError "Usuário ou senha incorretos.".

(** The Auth Gateway of a request: the dependency [get_current_user] on
    what the bearer scheme extracted. *)
Definition authenticate (p : Process) (authorization : option jwt.token) (now : Z)
  : result jwt.claim :=
  credentials ← bearer_scheme authorization;
  get_current_user (SECRET_KEY (globals p)) credentials now.

(** The path operation of the request was entered: the response and the
    process are the ones it produced. *)
Definition entered `{QA : QueryAgent} (p : Process) (r : router.Request) : Prop :=
  router.serve p r
  = (router.respond (router.call r) (fst (router.path_operation p r)),
     snd (router.path_operation p r)).

(** The request was refused with [e] before its path operation was
    entered: the error is the response and the process is as it was. *)
Definition refused `{QA : QueryAgent} (p : Process) (r : router.Request) (e : exc) : Prop :=
  router.serve p r = (router.error_response e, p).

(** An [/ask] request with body [b] gets as far as building its agent:
    the gateway lets it through, the body is a valid [AskQueryRequest] and
    the agent accepts the database and the model. *)
Definition builds_agent (p : Process) (r : router.Request) (b : AskQueryRequest.body)
  : Prop :=
  (exists user, authenticate p (router.authorization r) (router.now r) = Ok user) /\
  exists req,
    AskQueryRequest.parse (CONNECTION_STRINGS p) b = Ok req /\
    DatabaseAgent._validate_inputs (CONNECTION_STRINGS p)
      (AskQueryRequest.db_name req) (AskQueryRequest.model req) = Ok tt.

(** The request supplies no API key: it is not an [/ask] request, or its
    [api_key] is missing or empty. *)
Definition keyless (r : router.Request) : Prop :=
  match router.call r with
  | router.POST_ask b => truthy_opt (AskQueryRequest.body_api_key b) = false
  | _ => True
  end.

(** The characters [quote_plus] writes: the unreserved ones, [+] and [%]. *)
Definition quoted_char (c : ascii) : bool :=
  urllib.always_safe c || (nat_of_ascii c =? 43)%nat || (nat_of_ascii c =? 37)%nat.

(** The statuses the path operation of each route can answer with, once
    the gateway has let the request through. *)
Definition handler_statuses (c : router.Call) : list nat :=
  match c with
  | router.POST_register _ => [201; 400; 500]
  | router.POST_login _ => [200; 401; 500]
  | router.POST_reset_password _ => [200; 400; 500]
  | router.POST_create_database _ _ _ _ _ => [500]
  | router.GET_databases => [200]
  | router.DELETE_delete_database _ => [500]
  | router.GET_models => [200]
  | router.POST_ask _ => [200; 422; 500]
  end.

(** The gateway refuses the request. *)
Definition unauthenticated (p : Process) (r : router.Request) : Prop :=
  exists e, authenticate p (router.authorization r) (router.now r) = Raise e.

(* ===================================================================== *)
(** * Concrete configurations used in the examples *)
(* ===================================================================== *)

Module fixtures.

(** A collaborator that always answers. *)
Definition echo_agent : QueryAgent := {|
  SQLDatabase := string;
  ChatModel := option string;
  AgentExecutor := option string;
  SQLDatabase_from_uri := fun uri => Ok uri;
  ChatOpenAI := fun _ key => Ok key;
  create_agent_executor := fun _ m => Ok m;
  invoke := fun executor _ => Ok executor
|}.

(** The secret and the credential-store parameters are set; none of the
    parameters that only the predefined connections read is. *)
Definition env_users_only : gmap string string :=
  list_to_map [("SECRET_KEY", "s3cr3t"); ("DB_DRIVER", "SQL Server");
               ("DB_SERVER", "localhost"); ("DB_DATABASE", "users");
               ("DB_TRUSTED_CONNECTION", "yes")].

Definition users : sql.engine :=
  sql.Engine [sql.Row EmptyString (bcrypt.hashpw "pw0" "salt0");
              sql.Row "alice" (bcrypt.hashpw "pw1" "salt1")] true
    sql.case_insensitive.

(** A key with a NUL in it: JSON writes it [sk\u0000x]. *)
Definition nul_key : string :=
  String "s"%char (String "k"%char (String (ascii_of_nat 0) (String "x"%char EmptyString))).

(** The text [U+D800], a lone surrogate: JSON writes it [\ud800]. *)
Definition lone_surrogate : string :=
  String (ascii_of_nat 237) (String (ascii_of_nat 160)
    (String (ascii_of_nat 128) EmptyString)).

Definition process : Process :=
  {| environ := env_users_only;
     globals := {| SECRET_KEY := "s3cr3t"; users_db_uri := "mssql+pyodbc:///" |};
     CONNECTION_STRINGS := DatabaseAgent.CONNECTION_STRINGS env_users_only;
     engine := users |}.

Definition alice_token : jwt.token :=
  UserService.create_access_token "s3cr3t" {[ "username" := jwt.JStr "alice" ]}.

(** Well-formed, expired a long time ago, and not signed by anyone. *)
Definition forged_expired_token : jwt.token :=
  jwt.Compact "HS256"
    (<["exp" := jwt.JNum 1600000000]> {[ "username" := jwt.JStr "alice" ]})
    (jwt.Forged "AAAA").

Definition ask (api_key : option string) : router.Call :=
  router.POST_ask {| AskQueryRequest.body_question := "Quantos clientes?";
                     AskQueryRequest.body_db_name := Some "Banco de dados 1";
                     AskQueryRequest.body_model := Some "gpt-4";
                     AskQueryRequest.body_api_key := api_key |}.

Definition request (auth : option jwt.token) (c : router.Call) : router.Request :=
  {| router.authorization := auth; router.call := c;
     router.now := 1700000000; router.salt := "salt2" |}.

End fixtures.

(* ===================================================================== *)
(** * Properties *)
(* ===================================================================== *)

(** ** Start-up configuration *)

Lemma truthy_opt_absent (environ : gmap string string) (var : string) :
  os.absent environ var = true -> truthy_opt (os.getenv environ var) = false.
Proof. unfold os.absent. by destruct (truthy_opt _). Qed.

Lemma filter_absent_nonempty (environ : gmap string string) (var : string) (vars : list string) :
  var ∈ vars ->
  os.absent environ var = true ->
  filter (fun v => os.absent environ v = true) vars <> [].
Proof.
  intros Hin Habs Hnil.
  assert (var ∈ filter (fun v => os.absent environ v = true) vars) as Hmem
    by (apply list_elem_of_filter; done).
  rewrite Hnil in Hmem. by apply not_elem_of_nil in Hmem.
Qed.

(** C9, as amended: when the signing secret or one of the credential-store
    parameters [DB_DRIVER], [DB_SERVER], [DB_DATABASE],
    [DB_TRUSTED_CONNECTION] is unset (or empty) once [load_dotenv()] has
    run, start-up raises [ValueError] and no process comes up. *)
Theorem startup_refuses_missing_configuration
    (environ dotenv : gmap string string) (db : sql.engine) (var : string) :
  var ∈ "SECRET_KEY" :: required_env_vars ->
  os.absent (os.load_dotenv environ dotenv) var = true ->
  exists msg, startup environ dotenv db = Raise (ValueError msg).
Proof.
  intros Hin Habs. unfold startup, user_service_module.
  destruct (truthy_opt (os.getenv (os.load_dotenv environ dotenv) "SECRET_KEY")) eqn:Hsecret;
    simpl; [| by eexists].
  apply elem_of_cons in Hin as [-> | Hin].
  { apply truthy_opt_absent in Habs. congruence. }
  pose proof (filter_absent_nonempty _ _ _ Hin Habs) as Hne.
  destruct (filter _ required_env_vars) as [| v vs] eqn:Hf; [done |].
  by eexists.
Qed.

Lemma startup_refuses_missing_configuration_witness :
  exists msg,
    startup (delete "DB_SERVER" fixtures.env_users_only) ∅ fixtures.users
    = Raise (ValueError msg).
Proof.
  apply (startup_refuses_missing_configuration _ _ _ "DB_SERVER").
  - apply (bool_decide_unpack _). vm_compute. exact I.
  - vm_compute. reflexivity.
Defined.

(** C9, the claim as the specification states it, refuted: with every
    parameter of the second predefined connection unset, start-up
    succeeds and the connection is registered with [None] in each field. *)
Lemma startup_accepts_missing_builtin_parameters :
  os.absent (os.load_dotenv fixtures.env_users_only ∅) "DB_USER_CRM" = true /\
  match startup fixtures.env_users_only ∅ fixtures.users with
  | Ok p =>
      CONNECTION_STRINGS p !! "Banco de dados 2"
      = Some "DRIVER={None};SERVER=None;DATABASE=None;UID=None;PWD=None;"
  | Raise _ => False
  end.
Proof.
  split; vm_compute; reflexivity.
Qed.

(** ** The Connection Registry *)

Lemma dict_in_true {V : Type} (k : string) (d : gmap string V) :
  dict_in k d = true <-> is_Some (d !! k).
Proof. unfold dict_in. apply bool_decide_eq_true. Qed.

Lemma dict_in_false {V : Type} (k : string) (d : gmap string V) :
  dict_in k d = false <-> d !! k = None.
Proof.
  unfold dict_in. rewrite bool_decide_eq_false. symmetry. apply eq_None_not_Some.
Qed.

Lemma truthy_false (s : string) : truthy s = false <-> s = EmptyString.
Proof. destruct s; simpl; split; congruence. Qed.

Lemma truthy_true (s : string) : truthy s = true <-> s <> EmptyString.
Proof. destruct s; simpl; split; congruence. Qed.

(** What [validate_connection_params] answers, case by case. *)
Lemma validate_connection_params_cases (conns : gmap string string)
    (name server database user password : string) :
  (Registry.blank [name; server; database; user; password] = true /\
   exists msg, In msg Registry.required_messages /\
     DatabaseService.validate_connection_params conns name server database user password
     = Raise (ValueError msg))
  \/ (Registry.blank [name; server; database; user; password] = false /\
      is_Some (conns !! name) /\
      DatabaseService.validate_connection_params conns name server database user password
      = Raise (ValueError ("Já existe um banco de dados cadastrado com o nome '"
                             ++ name ++ "'")))
  \/ (Registry.blank [name; server; database; user; password] = false /\
      conns !! name = None /\
      DatabaseService.validate_connection_params conns name server database user password
      = Ok tt).
Proof.
  unfold DatabaseService.validate_connection_params, Registry.required_messages.
  destruct name as [| c0 name];
    [left; split; [done | eexists; split; [| done]; simpl; tauto] |].
  destruct server as [| c1 server];
    [left; split; [done | eexists; split; [| done]; simpl; tauto] |].
  destruct database as [| c2 database];
    [left; split; [done | eexists; split; [| done]; simpl; tauto] |].
  destruct user as [| c3 user];
    [left; split; [done | eexists; split; [| done]; simpl; tauto] |].
  destruct password as [| c4 password];
    [left; split; [done | eexists; split; [| done]; simpl; tauto] |].
  right. simpl.
  destruct (dict_in (String c0 name) conns) eqn:Hin.
  - left. split; [done |]. split; [by apply dict_in_true | done].
  - right. split; [done |]. split; [by apply dict_in_false | done].
Qed.

(** What [create_database] does, case by case: a refusal leaves the
    registry as it was, a success binds a name that was free. *)
Lemma create_database_cases (conns : gmap string string)
    (name server database user password : string) :
  (Registry.blank [name; server; database; user; password] = true /\
   exists e, Registry.ValidationError e /\
     DatabaseService.create_database conns name server database user password
     = (Raise e, conns))
  \/ (Registry.blank [name; server; database; user; password] = false /\
      is_Some (conns !! name) /\
      exists e, Registry.ConflictError name e /\
        DatabaseService.create_database conns name server database user password
        = (Raise e, conns))
  \/ (Registry.blank [name; server; database; user; password] = false /\
      conns !! name = None /\
      DatabaseService.create_database conns name server database user password
      = (Ok [("message", "Banco de dados '" ++ name ++ "' criado com sucesso.")],
         <[name := DatabaseService.connection_string server database user password]> conns)).
Proof.
  unfold DatabaseService.create_database.
  destruct (validate_connection_params_cases conns name server database user password)
    as [(Hb & msg & Hmsg & ->) | [(Hb & Hreg & ->) | (Hb & Hfree & ->)]].
  - left. split; [done |]. exists (HTTPException HTTP_400_BAD_REQUEST msg).
    split; [by exists msg | done].
  - right; left. do 2 (split; [done |]). eexists. split; [reflexivity | done].
  - right; right. do 2 (split; [done |]). simpl.
    unfold DatabaseAgent.add_connection.
    apply dict_in_false in Hfree. by rewrite Hfree.
Qed.

Lemma delete_database_cases (conns : gmap string string) (name : string) :
  ((name = EmptyString \/ conns !! name = None) /\
   exists e, Registry.NotFoundError e /\
     DatabaseService.delete_database conns name = (Raise e, conns))
  \/ (name <> EmptyString /\
      is_Some (conns !! name) /\
      DatabaseService.delete_database conns name
      = (Ok [("message", "Banco de dados '" ++ name ++ "' removido com sucesso.")],
         delete name conns)).
Proof.
  unfold DatabaseService.delete_database.
  destruct (truthy name) eqn:Hname; simpl.
  - destruct (dict_in name conns) eqn:Hin; simpl.
    + right. split; [by apply truthy_true |]. split; [by apply dict_in_true | done].
    + left. apply dict_in_false in Hin. split; [by right |].
      eexists. split; [by eexists | done].
  - left. apply truthy_false in Hname. split; [by left |].
    eexists. split; [by eexists | done].
Qed.

(** A name that is registered keeps its connection string through every
    operation except its own removal. *)
Lemma step_keeps_binding (conns : gmap string string) (op : Registry.Op)
    (name d : string) :
  conns !! name = Some d ->
  op <> Registry.remove name ->
  snd (Registry.step conns op) !! name = Some d.
Proof.
  intros Hd Hop. destruct op as [n s db u pw | n | n]; simpl.
  - destruct (create_database_cases conns n s db u pw)
      as [(_ & e & _ & ->) | [(_ & _ & e & _ & ->) | (_ & Hfree & ->)]]; simpl; try done.
    rewrite lookup_insert_ne; [done | congruence].
  - destruct (delete_database_cases conns n) as [(_ & e & _ & ->) | (_ & _ & ->)];
      simpl; [done |].
    rewrite lookup_delete_ne; [done | congruence].
  - done.
Qed.

Lemma run_keeps_binding (ops : list Registry.Op) (conns : gmap string string)
    (name d : string) :
  conns !! name = Some d ->
  Registry.remove name ∉ ops ->
  Registry.run conns ops !! name = Some d.
Proof.
  revert conns. induction ops as [| op ops IH]; intros conns Hd Hops; simpl; [done |].
  apply not_elem_of_cons in Hops as [Hop Hops].
  apply IH; [| done]. apply step_keeps_binding; [done | congruence].
Qed.

(** C2: the guards of the Connection Registry.  For every registry and
    every argument list, [add] with an empty field fails with the
    validation error and [add] of a registered name fails with the
    conflict error (when no field is empty; the empty field is reported
    otherwise), both leaving the registry as it was; [remove] and
    [resolve] of a name that is not registered fail with the not-found
    error.  Hence over every sequence of operations a registered name
    keeps the one connection string it was added with until it is
    removed, and the names listed are pairwise distinct. *)
Theorem registry_guards (conns : gmap string string)
    (name server database user password : string) :
  (Registry.blank [name; server; database; user; password] = true ->
   exists e, Registry.ValidationError e /\
     DatabaseService.create_database conns name server database user password
     = (Raise e, conns))
  /\ (is_Some (conns !! name) ->
      exists e,
        DatabaseService.create_database conns name server database user password
        = (Raise e, conns) /\
        if Registry.blank [name; server; database; user; password]
        then Registry.ValidationError e
        else Registry.ConflictError name e)
  /\ (conns !! name = None ->
      exists e, Registry.NotFoundError e /\
        DatabaseService.delete_database conns name = (Raise e, conns))
  /\ (conns !! name = None ->
      exists e, Registry.NotFoundError e /\
        DatabaseService.get_connection_string conns name = Raise e)
  /\ (forall (ops : list Registry.Op) (d : string),
        conns !! name = Some d ->
        Registry.remove name ∉ ops ->
        Registry.run conns ops !! name = Some d)
  /\ (forall ops : list Registry.Op, NoDup (Registry.names (Registry.run conns ops))).
Proof.
  repeat split.
  - intros Hblank.
    destruct (create_database_cases conns name server database user password)
      as [(_ & e & He & Heq) | [(Hb & _) | (Hb & _)]]; [by exists e | congruence ..].
  - intros Hreg.
    destruct (create_database_cases conns name server database user password)
      as [(Hb & e & He & Heq) | [(Hb & _ & e & He & Heq) | (_ & Hfree & _)]].
    + exists e. by rewrite Hb.
    + exists e. by rewrite Hb.
    + rewrite Hfree in Hreg. by destruct Hreg.
  - intros Hfree.
    destruct (delete_database_cases conns name) as [(_ & e & He & Heq) | (_ & Hreg & _)];
      [by exists e |].
    rewrite Hfree in Hreg. by destruct Hreg.
  - intros Hfree. unfold DatabaseService.get_connection_string. rewrite Hfree.
    destruct (truthy name); simpl; eexists; (split; [by eexists | done]).
  - intros ops d. apply run_keeps_binding.
  - intros ops. apply NoDup_fst_map_to_list.
Qed.

Lemma registry_guards_witness :
  exists e,
    DatabaseService.create_database (CONNECTION_STRINGS fixtures.process)
      "Banco de dados 1" "srv" "crm" "reader" "pw"
    = (Raise e, CONNECTION_STRINGS fixtures.process) /\
    Registry.ConflictError "Banco de dados 1" e.
Proof.
  destruct (registry_guards (CONNECTION_STRINGS fixtures.process)
              "Banco de dados 1" "srv" "crm" "reader" "pw") as (_ & Hconflict & _).
  apply Hconflict.
  exists "DRIVER={SQL Server};SERVER=localhost;DATABASE=users;UID=None;PWD=None;".
  vm_compute. reflexivity.
Defined.

(** C8: after a successful [add], [resolve] of the same name returns the
    connection string built from the four fields and the fixed driver. *)
Theorem resolve_after_add (conns conns' : gmap string string)
    (name server database user password : string) (confirmation : list (string * string)) :
  DatabaseService.create_database conns name server database user password
  = (Ok confirmation, conns') ->
  DatabaseService.get_connection_string conns' name
  = Ok ("DRIVER={ODBC Driver 17 for SQL Server};"
        ++ "SERVER=" ++ server ++ ";"
        ++ "DATABASE=" ++ database ++ ";"
        ++ "UID=" ++ user ++ ";"
        ++ "PWD=" ++ password ++ ";").
Proof.
  intros Hadd.
  destruct (create_database_cases conns name server database user password)
    as [(_ & e & _ & Heq) | [(_ & _ & e & _ & Heq) | (Hb & _ & Heq)]];
    rewrite Heq in Hadd; try discriminate.
  injection Hadd as _ <-.
  unfold DatabaseService.get_connection_string.
  assert (truthy name = true) as ->.
  { simpl in Hb. by destruct (truthy name). }
  simpl. by rewrite lookup_insert_eq.
Qed.

Lemma resolve_after_add_witness :
  DatabaseService.get_connection_string
    (snd (DatabaseService.create_database (CONNECTION_STRINGS fixtures.process)
            "Vendas" "10.0.0.5" "sales" "reader" "s3nha"))
    "Vendas"
  = Ok "DRIVER={ODBC Driver 17 for SQL Server};SERVER=10.0.0.5;DATABASE=sales;UID=reader;PWD=s3nha;".
Proof.
  apply (resolve_after_add (CONNECTION_STRINGS fixtures.process)
           (snd (DatabaseService.create_database (CONNECTION_STRINGS fixtures.process)
                   "Vendas" "10.0.0.5" "sales" "reader" "s3nha"))
           "Vendas" "10.0.0.5" "sales" "reader" "s3nha"
           [("message", "Banco de dados 'Vendas' criado com sucesso.")]).
  rewrite (surjective_pairing (DatabaseService.create_database _ _ _ _ _ _)).
  f_equal; vm_compute; reflexivity.
Defined.

(** ** Credentials and tokens *)

Lemma encode_encodable (s : string) :
  codecs.encodable s = true -> codecs.encode s = Ok s.
Proof.
  unfold codecs.encodable, codecs.encode.
  by destruct (codecs.check codecs.strict s) as [[] | e].
Qed.

(** The row a statement returns is one the server matched. *)
Lemma fetchone_matches (same : string -> string -> bool) (rows : list sql.row)
    (u : string) (row : sql.row) :
  sql.fetchone same rows u = Some row ->
  row ∈ rows /\ same (sql.username row) u = true.
Proof.
  unfold sql.fetchone. intros Hhead.
  apply head_Some_elem_of, list_elem_of_filter in Hhead. tauto.
Qed.

(** What a login that succeeds has found and returns. *)
Lemma login_user_ok (secret : string) (eng : sql.engine) (username password : string)
    (res : UserService.auth_result) :
  UserService.login_user secret eng username password = Ok res ->
  exists row,
    sql.fetchone (sql.matches eng) (sql.Usuarios eng) username = Some row /\
    codecs.encodable password = true /\
    bcrypt.checkpw password (sql.password_hash row) = true /\
    res = {| UserService.access_token :=
               UserService.create_access_token secret
                 {[ "username" := jwt.JStr (sql.username row) ]};
             UserService.token_type := "bearer" |}.
Proof.
  unfold UserService.login_user, sql.connect.
  destruct (sql.reachable eng); simpl; [| done].
  destruct (sql.fetchone (sql.matches eng) (sql.Usuarios eng) username) as [row |];
    simpl; [| done].
  unfold codecs.encodable, codecs.encode.
  destruct (codecs.check codecs.strict password) as [[] | e]; simpl; [| done].
  destruct (bcrypt.checkpw password (sql.password_hash row)) eqn:Hpw; simpl; [| done].
  intros [= <-]. by exists row.
Qed.

(** Tokens of the service carry the username and nothing else, so the
    registered claims have nothing to object to. *)
Lemma validate_claims_username (c : jwt.claim) (now : Z) :
  jwt.validate_claims {[ "username" := c ]} now = None.
Proof.
  unfold jwt.validate_claims, jwt._validate_iat, jwt._validate_nbf, jwt._validate_exp,
    jwt._validate_aud.
  rewrite !lookup_singleton_ne by done. done.
Qed.

Lemma decode_encode_username (secret : string) (c : jwt.claim) (now : Z) :
  jwt.decode (jwt.encode {[ "username" := c ]} secret ALGORITHM) secret [ALGORITHM] now
  = inr {[ "username" := c ]}.
Proof.
  unfold jwt.decode, jwt.encode.
  rewrite bool_decide_eq_true_2 by (apply list_elem_of_singleton; done).
  rewrite bool_decide_eq_true_2 by done. simpl.
  by rewrite validate_claims_username.
Qed.

(** What [verify_token] makes of a token of the service. *)
Lemma verify_token_issued (secret u : string) (now : Z) :
  UserService.verify_token secret
    (UserService.create_access_token secret {[ "username" := jwt.JStr u ]}) now
  = if truthy u then Ok (jwt.JStr u) else Raise token_without_user.
Proof.
  unfold UserService.verify_token, UserService.create_access_token.
  rewrite decode_encode_username, lookup_singleton_eq. simpl.
  by destruct (truthy u).
Qed.

(** C3, as amended: a login that succeeds was matched by the store with
    a stored credential, and verifying the token that login issued
    yields the username of that credential -- the name as it is stored,
    which the name typed equals only up to the store's comparison --, at
    whatever time the token is verified, provided the stored name is not
    empty; the token for a stored empty name is refused. *)
Theorem verify_issue_roundtrip (secret : string) (eng : sql.engine)
    (username password : string) (res : UserService.auth_result) (now : Z) :
  UserService.login_user secret eng username password = Ok res ->
  exists row,
    sql.fetchone (sql.matches eng) (sql.Usuarios eng) username = Some row
    /\ (sql.username row <> EmptyString ->
        UserService.verify_token secret (UserService.access_token res) now
        = Ok (jwt.JStr (sql.username row)))
    /\ (sql.username row = EmptyString ->
        UserService.verify_token secret (UserService.access_token res) now
        = Raise token_without_user).
Proof.
  intros Hlogin.
  destruct (login_user_ok _ _ _ _ _ Hlogin) as (row & Hrow & _ & _ & ->).
  exists row. split; [done |]. simpl. rewrite verify_token_issued.
  split; intros Hname.
  - apply truthy_true in Hname. by rewrite Hname.
  - by rewrite Hname.
Qed.

Lemma verify_issue_roundtrip_witness :
  exists row,
    sql.fetchone (sql.matches fixtures.users) (sql.Usuarios fixtures.users) "ALICE "
    = Some row
    /\ (sql.username row <> EmptyString ->
        UserService.verify_token "s3cr3t" fixtures.alice_token 1700000000
        = Ok (jwt.JStr (sql.username row)))
    /\ (sql.username row = EmptyString ->
        UserService.verify_token "s3cr3t" fixtures.alice_token 1700000000
        = Raise token_without_user).
Proof.
  apply (verify_issue_roundtrip "s3cr3t" fixtures.users "ALICE " "pw1"
           {| UserService.access_token := fixtures.alice_token;
              UserService.token_type := "bearer" |} 1700000000).
  vm_compute. reflexivity.
Defined.

(** C3, the claim as the specification states it, refuted: login succeeds
    for the credential whose username is the empty string, and the token
    it is given is refused by [verify_token]. *)
Lemma roundtrip_fails_for_empty_username :
  match UserService.login_user "s3cr3t" fixtures.users EmptyString "pw0" with
  | Ok res =>
      UserService.verify_token "s3cr3t" (UserService.access_token res) 1700000000
      = Raise token_without_user
  | Raise _ => False
  end.
Proof.
  vm_compute. reflexivity.
Qed.

(** The name typed need not be the name the token is issued for: the
    store of the examples matches [ALICE ] with the credential stored as
    [alice]. *)
Example login_is_answered_for_the_stored_name :
  UserService.login_user "s3cr3t" fixtures.users "ALICE " "pw1"
  = Ok {| UserService.access_token := fixtures.alice_token;
          UserService.token_type := "bearer" |}.
Proof. vm_compute. reflexivity. Qed.

(** A login with an unknown username and a login with a known username
    and a wrong password that can be encoded fail with the same
    [ValueError], and the [/login] route answers both with the same
    status 401 and the same detail; nothing of the process changes. *)
Lemma refused_logins_agree `{QA : QueryAgent}
    (p : Process) (r : router.Request) (req : LoginRequest.t) :
  router.call r = router.POST_login req ->
  sql.reachable (engine p) = true ->
  unknown_username (engine p) (LoginRequest.username req)
  \/ wrong_password (engine p) (LoginRequest.username req) (LoginRequest.password req) ->
  UserService.login_user (SECRET_KEY (globals p)) (engine p)
    (LoginRequest.username req) (LoginRequest.password req)
  = Raise invalid_credentials
  /\ router.serve p r
     = ({| status_code := HTTP_401_UNAUTHORIZED;
           body := CDict [("detail", VStr "Usuário ou senha incorretos.")] |}, p).
Proof.
  intros Hcall Hup Hcause.
  assert (UserService.login_user (SECRET_KEY (globals p)) (engine p)
            (LoginRequest.username req) (LoginRequest.password req)
          = Raise invalid_credentials) as Hlogin.
  { unfold UserService.login_user, sql.connect. rewrite Hup. simpl.
    destruct Hcause as [Hnone | (row & Hrow & Henc & Hpw)].
    - unfold unknown_username in Hnone. by rewrite Hnone.
    - rewrite Hrow, (encode_encodable _ Henc). simpl. by rewrite Hpw. }
  split; [done |].
  unfold router.serve, router.path_operation. rewrite Hcall. simpl.
  unfold controllers.login. by rewrite Hlogin.
Qed.

(** C4, refuted on the code: a password that cannot be encoded separates
    the two failures.  With the lone surrogate for a password, the login
    for a username the store does not have is answered with the detail
    of a refused login, and the login for a username it has is answered
    with the message of the [UnicodeEncodeError] that line 114 raised and
    [except ValueError] passed on. *)
Theorem login_failures_are_distinguishable :
  unknown_username fixtures.users "mallory"
  /\ ~ unknown_username fixtures.users "alice"
  /\ UserService.login_user "s3cr3t" fixtures.users "mallory" fixtures.lone_surrogate
     = Raise invalid_credentials
  /\ UserService.login_user "s3cr3t" fixtures.users "alice" fixtures.lone_surrogate
     = Raise (ValueError ("'utf-8' codec can't encode character '\ud800' "
                          ++ "in position 0: surrogates not allowed"))
  /\ router.serve (QA := fixtures.echo_agent) fixtures.process
       (fixtures.request None
          (router.POST_login {| LoginRequest.username := "mallory";
                                LoginRequest.password := fixtures.lone_surrogate |}))
     = ({| status_code := 401;
           body := CDict [("detail", VStr "Usuário ou senha incorretos.")] |},
        fixtures.process)
  /\ router.serve (QA := fixtures.echo_agent) fixtures.process
       (fixtures.request None
          (router.POST_login {| LoginRequest.username := "alice";
                                LoginRequest.password := fixtures.lone_surrogate |}))
     = ({| status_code := 401;
           body :=
             CDict [("detail",
                     VStr ("'utf-8' codec can't encode character '\ud800' "
                           ++ "in position 0: surrogates not allowed"))] |},
        fixtures.process)
  /\ "'utf-8' codec can't encode character '\ud800' in position 0: surrogates not allowed"
     <> "Usuário ou senha incorretos.".
Proof.
  split; [vm_compute; reflexivity |].
  split; [vm_compute; discriminate |].
  split; [vm_compute; reflexivity |].
  split; [vm_compute; reflexivity |].
  split; [vm_compute; reflexivity |].
  split; [vm_compute; reflexivity | discriminate].
Qed.

(** [numeric] either reads the claim as [int] does or refuses it. *)
Lemma numeric_inr (c : jwt.claim) (bad : jwt.error) (n : Z) :
  jwt.numeric c bad = inr n <-> jwt.int c = jwt.IntOk n.
Proof.
  unfold jwt.numeric. destruct (jwt.int c); split; congruence.
Qed.

Lemma numeric_inl (c : jwt.claim) (bad e : jwt.error) :
  jwt.numeric c bad = inl e -> e = bad \/ (e = jwt.TypeError /\ c = jwt.JNull).
Proof.
  unfold jwt.numeric.
  destruct c as [| b | n | s]; simpl; [intros [= <-]; auto | done | done |].
  destruct (jwt.int_str s); [done | intros [= <-]; auto].
Qed.

(** Every library error other than [ExpiredSignatureError] and the
    [TypeError] is answered with the plain invalid-token error. *)
Lemma verify_token_decode_error (secret : string) (t : jwt.token) (now : Z) (e : jwt.error) :
  jwt.decode t secret [ALGORITHM] now = inl e ->
  UserService.verify_token secret t now
  = Raise (if decide (e = jwt.ExpiredSignatureError) then token_expired
           else if decide (e = jwt.TypeError) then token_type_error
           else token_invalid).
Proof.
  intros Hdec. unfold UserService.verify_token. rewrite Hdec.
  by destruct e.
Qed.

Lemma decode_inv (secret : string) (t : jwt.token) (now : Z) :
  (~ well_signed secret t /\
   exists e, e <> jwt.ExpiredSignatureError /\ e <> jwt.TypeError /\
             jwt.decode t secret [ALGORITHM] now = inl e)
  \/ (exists payload,
        t = jwt.encode payload secret ALGORITHM /\
        jwt.decode t secret [ALGORITHM] now
        = match jwt.validate_claims payload now with
          | Some e => inl e
          | None => inr payload
          end).
Proof.
  destruct t as [alg payload sig | raw]; simpl.
  - destruct (decide (alg ∈ [ALGORITHM])) as [Halg | Halg].
    + rewrite bool_decide_eq_true_2 by done. simpl.
      destruct (decide (sig = jwt.HMAC secret alg payload)) as [-> | Hsig].
      * rewrite bool_decide_eq_true_2 by done. simpl.
        apply list_elem_of_singleton in Halg as ->.
        right. by exists payload.
      * rewrite bool_decide_eq_false_2 by done. simpl.
        left. split; [| eexists; split; [| split; [| reflexivity]]; done].
        intros (payload' & [= -> -> ->]). by apply Hsig.
    + rewrite bool_decide_eq_false_2 by done. simpl.
      left. split; [| eexists; split; [| split; [| reflexivity]]; done].
      intros (payload' & [= -> -> ->]). apply Halg. by apply list_elem_of_singleton.
  - left. split; [| eexists; split; [| split; [| reflexivity]]; done].
    by intros (payload' & [=]).
Qed.




(** What one check of a time claim has seen when it raises. *)
Lemma time_check_inv (payload : gmap string jwt.claim) (key : string)
    (bad err e : jwt.error) (ahead : Z -> bool) :
  match payload !! key with
  | None => None
  | Some c =>
      match jwt.numeric c bad with
      | inl e' => Some e'
      | inr t => if ahead t then Some err else None
      end
  end = Some e ->
  e = bad
  \/ (e = jwt.TypeError /\ payload !! key = Some jwt.JNull)
  \/ (e = err /\ exists c t,
         payload !! key = Some c /\ jwt.int c = jwt.IntOk t /\ ahead t = true).
Proof.
  destruct (payload !! key) as [c |]; [| done].
  destruct (jwt.numeric c bad) as [e' | t] eqn:Hnum.
  - intros [= <-]. apply numeric_inl in Hnum as [-> | [-> ->]]; auto.
  - destruct (ahead t) eqn:Hahead; [| done]. intros [= <-].
    right. right. split; [done |]. exists c, t.
    split; [done |]. split; [by apply (numeric_inr c bad) | done].
Qed.

(** What [validate_claims] has seen when it raises one of the two errors
    that [verify_token] does not answer as invalid. *)
Lemma validate_claims_inv (payload : gmap string jwt.claim) (now : Z) (e : jwt.error) :
  jwt.validate_claims payload now = Some e ->
  (e = jwt.ExpiredSignatureError -> not_after payload "exp" now)
  /\ (e = jwt.TypeError ->
      exists key, key ∈ ["iat"; "nbf"; "exp"] /\ payload !! key = Some jwt.JNull).
Proof.
  assert ("iat" ∈ ["iat"; "nbf"; "exp"]) as Hin_iat
    by (apply (bool_decide_unpack _); vm_compute; exact I).
  assert ("nbf" ∈ ["iat"; "nbf"; "exp"]) as Hin_nbf
    by (apply (bool_decide_unpack _); vm_compute; exact I).
  assert ("exp" ∈ ["iat"; "nbf"; "exp"]) as Hin_exp
    by (apply (bool_decide_unpack _); vm_compute; exact I).
  unfold jwt.validate_claims.
  destruct (jwt._validate_iat payload now) as [e1 |] eqn:Hiat.
  { intros [= ->].
    apply (time_check_inv payload "iat" _ _ _ (fun t => (now <? t)%Z)) in Hiat
      as [-> | [[-> Hnull] | [-> _]]]; split; try done.
    intros _. by exists "iat". }
  destruct (jwt._validate_nbf payload now) as [e2 |] eqn:Hnbf.
  { intros [= ->].
    apply (time_check_inv payload "nbf" _ _ _ (fun t => (now <? t)%Z)) in Hnbf
      as [-> | [[-> Hnull] | [-> _]]]; split; try done.
    intros _. by exists "nbf". }
  destruct (jwt._validate_exp payload now) as [e3 |] eqn:Hexp.
  { intros [= ->].
    apply (time_check_inv payload "exp" _ _ _ (fun t => (t <=? now)%Z)) in Hexp
      as [-> | [[-> Hnull] | [-> (c & t & Hc & Hint & Hle)]]]; split; try done.
    - intros _. by exists "exp".
    - intros _. exists c, t. split; [done |]. split; [done | by apply Z.leb_le]. }
  unfold jwt._validate_aud.
  destruct (jwt.truthy_claim (payload !! "aud")); [| done].
  intros [= <-]. by split.
Qed.

(** Whatever [verify_token] raises is one of its three errors, or the
    [TypeError] of a token of the service with a [null] time claim. *)
Lemma verify_token_raises (secret : string) (t : jwt.token) (now : Z) (e : exc) :
  UserService.verify_token secret t now = Raise e ->
  e = token_expired \/ e = token_invalid \/ e = token_without_user
  \/ (e = token_type_error /\ well_signed secret t /\ null_time_claim t).
Proof.
  intros Hraise.
  destruct (decode_inv secret t now)
    as [(_ & err & Hexp & Htype & Hdec) | (payload & -> & Hdec)].
  { rewrite (verify_token_decode_error _ _ _ _ Hdec) in Hraise.
    rewrite !decide_False in Hraise by done. injection Hraise as <-. auto. }
  destruct (jwt.validate_claims payload now) as [err |] eqn:Hval.
  - rewrite (verify_token_decode_error _ _ _ _ Hdec) in Hraise.
    destruct (decide (err = jwt.ExpiredSignatureError)); [injection Hraise as <-; auto |].
    destruct (decide (err = jwt.TypeError)) as [-> |]; [| injection Hraise as <-; auto].
    injection Hraise as <-. right. right. right.
    split; [done |]. split; [by exists payload |].
    destruct (proj2 (validate_claims_inv _ _ _ Hval) eq_refl) as (key & Hkey & Hnull).
    by exists ALGORITHM, payload, (jwt.HMAC secret ALGORITHM payload), key.
  - unfold UserService.verify_token in Hraise. rewrite Hdec in Hraise.
    destruct (payload !! "username") as [c |]; [| injection Hraise as <-; auto].
    destruct (jwt.truthy_claim (Some c)); simpl in Hraise; [done |].
    injection Hraise as <-. auto.
Qed.




(** A fourth error: in a token of the service whose expiry is [null],
    [int] raises a [TypeError] that neither PyJWT nor [verify_token]
    catches; the gateway answers it with a message of its own. *)
Example null_expiry_escapes_verify_token :
  let t := jwt.encode (<["exp" := jwt.JNull]> {[ "username" := jwt.JStr "alice" ]})
             "s3cr3t" ALGORITHM in
  UserService.verify_token "s3cr3t" t 1700000000 = Raise token_type_error
  /\ authenticate fixtures.process (Some t) 1700000000
     = Raise (HTTPException HTTP_401_UNAUTHORIZED
                ("Erro na verificação do token: " ++ str token_type_error)).
Proof. split; vm_compute; reflexivity. Qed.

(** A time claim written as a string or a boolean is read by [int] like
    the number it stands for. *)
Example string_expiry_is_read_as_a_number :
  UserService.verify_token "s3cr3t"
    (jwt.encode (<["exp" := jwt.JStr " 1_600_000_000 "]> {[ "username" := jwt.JStr "alice" ]})
       "s3cr3t" ALGORITHM) 1700000000
  = Raise token_expired
  /\ UserService.verify_token "s3cr3t"
       (jwt.encode (<["exp" := jwt.JStr "soon"]> {[ "username" := jwt.JStr "alice" ]})
          "s3cr3t" ALGORITHM) 1700000000
     = Raise token_invalid.
Proof. split; vm_compute; reflexivity. Qed.

(** ** The router *)

Section router_facts.
Context `{QA : QueryAgent}.

Lemma solve_gated (p : Process) (r : router.Request) :
  router.solve_dependencies [router.Depends_get_current_user] p r
  = (authenticate p (router.authorization r) (router.now r);; Ok tt).
Proof.
  unfold authenticate. simpl.
  destruct (bearer_scheme (router.authorization r)) as [credentials | e]; simpl; [| done].
  by destruct (get_current_user _ credentials _).
Qed.

(** A gated route whose gateway raised: the error is the response and
    the path operation is not entered. *)
Lemma serve_refused (p : Process) (r : router.Request) (e : exc) :
  router.dependencies (router.call r) = [router.Depends_get_current_user] ->
  authenticate p (router.authorization r) (router.now r) = Raise e ->
  router.serve p r = (router.error_response e, p).
Proof.
  intros Hdeps Hauth. unfold router.serve.
  by rewrite Hdeps, solve_gated, Hauth.
Qed.

(** A gated route whose gateway returned, or a route without
    dependencies: the response is what the path operation produced. *)
Lemma serve_entered (p : Process) (r : router.Request) :
  (router.dependencies (router.call r) = []
   \/ exists user, authenticate p (router.authorization r) (router.now r) = Ok user) ->
  router.serve p r
  = (router.respond (router.call r) (fst (router.path_operation p r)),
     snd (router.path_operation p r)).
Proof.
  intros Hin. unfold router.serve.
  assert (router.solve_dependencies (router.dependencies (router.call r)) p r = Ok tt) as ->.
  { destruct Hin as [-> | [user Hauth]]; [done |].
    destruct (router.call r); simpl router.dependencies; try done;
      by rewrite solve_gated, Hauth. }
  by destruct (router.path_operation p r).
Qed.

(** Whatever the gateway raises is an [HTTPException] of status 401 or
    403. *)
Lemma authenticate_error (p : Process) (a : option jwt.token) (now : Z) (e : exc) :
  authenticate p a now = Raise e ->
  exists sc detail,
    e = HTTPException sc detail /\
    (sc = HTTP_401_UNAUTHORIZED \/ sc = HTTP_403_FORBIDDEN).
Proof.
  unfold authenticate, bearer_scheme.
  destruct a as [t |]; simpl; [| intros [= <-]; eauto].
  unfold try_except.
  destruct (UserService.verify_token (SECRET_KEY (globals p)) t now) as [u | e'] eqn:Hv;
    [done |].
  destruct (verify_token_raises _ _ _ _ Hv) as [-> | [-> | [-> | [-> _]]]];
    intros [= <-]; eauto.
Qed.

End router_facts.

Lemma with_engine_id (p : Process) : with_engine p (engine p) = p.
Proof. by destruct p. Qed.

Lemma with_connections_id (p : Process) : with_connections p (CONNECTION_STRINGS p) = p.
Proof. by destruct p. Qed.



(** ** The routes *)




(** C5: an authenticated [POST /create_database] whose arguments fail
    validation (an empty field, or a name that is already registered) is
    refused by the service with status 400, and the route answers it
    with status 500; the process is left as it was. *)
Theorem create_database_validation_is_500 `{QA : QueryAgent}
    (p : Process) (r : router.Request) (db_name server database user password : string)
    (acting : jwt.claim) :
  router.call r = router.POST_create_database db_name server database user password ->
  authenticate p (router.authorization r) (router.now r) = Ok acting ->
  Registry.blank [db_name; server; database; user; password] = true
  \/ is_Some (CONNECTION_STRINGS p !! db_name) ->
  (exists detail,
     DatabaseService.create_database (CONNECTION_STRINGS p)
       db_name server database user password
     = (Raise (HTTPException HTTP_400_BAD_REQUEST detail), CONNECTION_STRINGS p))
  /\ status_code (fst (router.serve p r)) = HTTP_500_INTERNAL_SERVER_ERROR
  /\ snd (router.serve p r) = p.
Proof.
  intros Hcall Hauth Hbad.
  assert (exists detail,
             DatabaseService.create_database (CONNECTION_STRINGS p)
               db_name server database user password
             = (Raise (HTTPException HTTP_400_BAD_REQUEST detail), CONNECTION_STRINGS p))
    as [detail Hsvc].
  { destruct (create_database_cases (CONNECTION_STRINGS p) db_name server database user password)
      as [(_ & e & (msg & _ & ->) & Heq) | [(_ & _ & e & -> & Heq) | (Hb & Hfree & _)]];
      [by eexists | by eexists |].
    destruct Hbad as [Hblank | Hreg]; [congruence |].
    rewrite Hfree in Hreg. by destruct Hreg. }
  split; [by exists detail |].
  rewrite serve_entered by (right; by exists acting).
  unfold router.path_operation. rewrite Hcall.
  unfold controllers.create_database. rewrite Hsvc. simpl.
  split; [done | apply with_connections_id].
Qed.

Lemma create_database_validation_is_500_witness :
  status_code
    (fst (router.serve (QA := fixtures.echo_agent) fixtures.process
            (fixtures.request (Some fixtures.alice_token)
               (router.POST_create_database "Vendas" EmptyString "sales" "reader" "s3nha"))))
  = 500.
Proof.
  apply (create_database_validation_is_500 (QA := fixtures.echo_agent) fixtures.process _
           "Vendas" EmptyString "sales" "reader" "s3nha" (jwt.JStr "alice")).
  - reflexivity.
  - vm_compute. reflexivity.
  - left. reflexivity.
Defined.

(** C1, as amended: [/login] is the only route that is not gated.  Its
    path operation is entered whatever the request carries as
    credentials.  Every other route -- [/register], [/reset_password],
    [/create_database], [/databases], [/delete_database/{db_name}],
    [/models] and [/ask] -- is gated by the Auth Gateway: when the gateway
    raises, its error (status 401 or 403) is the response, the path
    operation is not entered and the process is as it was; the path
    operation is entered only when the gateway returned a user. *)
Theorem route_gating `{QA : QueryAgent} (p : Process) (r : router.Request) :
  match router.call r with
  | router.POST_login _ => entered p r
  | _ =>
      (forall e,
         authenticate p (router.authorization r) (router.now r) = Raise e ->
         refused p r e /\
         (status_code (router.error_response e) = HTTP_401_UNAUTHORIZED
          \/ status_code (router.error_response e) = HTTP_403_FORBIDDEN))
      /\ (forall user,
            authenticate p (router.authorization r) (router.now r) = Ok user ->
            entered p r)
  end.
Proof.
  assert (forall e,
             router.dependencies (router.call r) = [router.Depends_get_current_user] ->
             authenticate p (router.authorization r) (router.now r) = Raise e ->
             refused p r e /\
             (status_code (router.error_response e) = HTTP_401_UNAUTHORIZED
              \/ status_code (router.error_response e) = HTTP_403_FORBIDDEN)) as Hrefuse.
  { intros e Hdeps Hauth. split; [by apply serve_refused |].
    by destruct (authenticate_error _ _ _ _ Hauth) as (sc & detail & -> & Hsc). }
  assert (forall user,
             authenticate p (router.authorization r) (router.now r) = Ok user ->
             entered p r) as Henter.
  { intros user Hauth. apply serve_entered. right. by exists user. }
  destruct (router.call r) eqn:Hcall;
    try (split; [intros e; by apply Hrefuse | exact Henter]).
  apply serve_entered. left. by rewrite Hcall.
Qed.

(** C1, the claim as the specification states it, refuted: without a
    bearer token neither the delete route nor the ask route enters its
    path operation.  The delete request leaves the database registered,
    which its path operation would have removed; the ask request is not
    answered 200, which its path operation would have been. *)
Lemma delete_and_ask_are_gated :
  (~ entered (QA := fixtures.echo_agent) fixtures.process
       (fixtures.request None (router.DELETE_delete_database "Banco de dados 1"))
   /\ snd (router.serve (QA := fixtures.echo_agent) fixtures.process
             (fixtures.request None (router.DELETE_delete_database "Banco de dados 1")))
      = fixtures.process
   /\ CONNECTION_STRINGS
        (snd (router.path_operation (QA := fixtures.echo_agent) fixtures.process
                (fixtures.request None (router.DELETE_delete_database "Banco de dados 1"))))
      !! "Banco de dados 1" = None)
  /\ (~ entered (QA := fixtures.echo_agent) fixtures.process
         (fixtures.request None (fixtures.ask None))
      /\ status_code
           (fst (router.serve (QA := fixtures.echo_agent) fixtures.process
                   (fixtures.request None (fixtures.ask None))))
         <> HTTP_200_OK
      /\ status_code
           (router.respond (fixtures.ask None)
              (fst (router.path_operation (QA := fixtures.echo_agent) fixtures.process
                      (fixtures.request None (fixtures.ask None)))))
         = HTTP_200_OK).
Proof.
  split; (split; [| split]).
  - unfold entered. intros H.
    apply (f_equal (fun x => status_code (fst x))) in H. vm_compute in H. discriminate.
  - vm_compute. reflexivity.
  - vm_compute. reflexivity.
  - unfold entered. intros H.
    apply (f_equal (fun x => status_code (fst x))) in H. vm_compute in H. discriminate.
  - vm_compute. discriminate.
  - vm_compute. reflexivity.
Qed.

(** ** The API key override of [/ask] *)

Section api_key.
Context `{QA : QueryAgent}.

Lemma export_api_key_keyless (api_key : option string) (environ : gmap string string) :
  truthy_opt api_key = false ->
  DatabaseAgent.export_api_key api_key environ = Ok environ.
Proof.
  destruct api_key as [k |]; simpl; [| done]. intros Hk. by rewrite Hk.
Qed.

Lemma environ_set_assignable (environ : gmap string string) (k v : string) :
  os.assignable v = true ->
  os.environ_set environ k v = Ok (<[k := v]> environ).
Proof.
  unfold os.assignable, os.environ_set, codecs.fs_encodable. intros Hv.
  apply andb_true_iff in Hv as [Hfs Hnul].
  destruct (codecs.check codecs.surrogateescape v) as [[] | e]; [| done]. simpl.
  apply negb_true_iff in Hnul. by rewrite Hnul.
Qed.

Lemma environ_set_refused (environ : gmap string string) (k v : string) :
  os.assignable v = false ->
  exists msg, os.environ_set environ k v = Raise (ValueError msg).
Proof.
  unfold os.assignable, os.environ_set, codecs.fs_encodable, codecs.check. intros Hv.
  destruct (codecs.first_refused codecs.surrogateescape (codecs.points v) 0)
    as [[[position code] len] |]; simpl in *; [by eexists |].
  apply negb_false_iff in Hv. rewrite Hv. by eexists.
Qed.

Lemma export_api_key_supplied (k : string) (environ : gmap string string) :
  k <> EmptyString ->
  os.assignable k = true ->
  DatabaseAgent.export_api_key (Some k) environ = Ok (<["OPENAI_API_KEY" := k]> environ).
Proof.
  intros Hk Hok. apply truthy_true in Hk. simpl. rewrite Hk.
  by apply environ_set_assignable.
Qed.

(** The environment an export leaves behind: the one it returns, or the
    one it was given when the assignment raised. *)
Lemma setup_environ (conns environ : gmap string string) (db_name model : string)
    (api_key : option string) :
  snd (DatabaseAgent._setup_environment conns db_name model api_key environ)
  = match DatabaseAgent.export_api_key api_key environ with
    | Ok environ' => environ'
    | Raise _ => environ
    end.
Proof.
  unfold DatabaseAgent._setup_environment.
  by destruct (DatabaseAgent.export_api_key api_key environ).
Qed.

(** The environment that the construction of an agent leaves behind:
    the key is exported as soon as the inputs are accepted, whether or
    not the rest of the construction succeeds. *)
Lemma init_environ (conns environ : gmap string string) (db_name model : string)
    (api_key : option string) :
  snd (DatabaseAgent.__init__ conns environ db_name model api_key)
  = match DatabaseAgent._validate_inputs conns db_name model with
    | Ok _ =>
        match DatabaseAgent.export_api_key api_key environ with
        | Ok environ' => environ'
        | Raise _ => environ
        end
    | Raise _ => environ
    end.
Proof.
  unfold DatabaseAgent.__init__.
  destruct (DatabaseAgent._validate_inputs conns db_name model); [| done].
  rewrite <- (setup_environ conns environ db_name model api_key).
  by destruct (DatabaseAgent._setup_environment conns db_name model api_key environ).
Qed.

Lemma ask_question_environ (p : Process) (req : AskQueryRequest.t) :
  environ (snd (controllers.ask_question p req))
  = match DatabaseAgent._validate_inputs (CONNECTION_STRINGS p)
            (AskQueryRequest.db_name req) (AskQueryRequest.model req) with
    | Ok _ =>
        match DatabaseAgent.export_api_key (AskQueryRequest.api_key req) (environ p) with
        | Ok environ' => environ'
        | Raise _ => environ p
        end
    | Raise _ => environ p
    end.
Proof.
  unfold controllers.ask_question.
  rewrite <- init_environ.
  by destruct (DatabaseAgent.__init__ _ _ _ _ _).
Qed.

Lemma parse_api_key (conns : gmap string string) (b : AskQueryRequest.body)
    (req : AskQueryRequest.t) :
  AskQueryRequest.parse conns b = Ok req ->
  AskQueryRequest.api_key req = AskQueryRequest.body_api_key b.
Proof.
  unfold AskQueryRequest.parse.
  destruct (match AskQueryRequest.body_db_name b with
            | Some v => AskQueryRequest.validate_db_name conns v
            | None => Ok "CRM Reports"
            end); simpl; [| done].
  destruct (match AskQueryRequest.body_model b with
            | Some v => AskQueryRequest.validate_model v
            | None => _
            end); simpl; [| done].
  by intros [= <-].
Qed.

(** No route but [/ask] touches the environment, and [/ask] leaves it
    alone when no key is supplied. *)
Lemma path_operation_keyless (p : Process) (r : router.Request) :
  keyless r ->
  environ (snd (router.path_operation p r)) = environ p.
Proof.
  unfold keyless, router.path_operation.
  destruct (router.call r) as [req | req | req | n s d u pw | | n | | b]; intros Hkey.
  - unfold controllers.register_user. by destruct (UserService.register_user _ _ _ _ _).
  - done.
  - unfold controllers.reset_password. by destruct (UserService.reset_password _ _ _ _ _).
  - unfold controllers.create_database.
    by destruct (DatabaseService.create_database _ _ _ _ _ _).
  - done.
  - unfold controllers.delete_database. by destruct (DatabaseService.delete_database _ _).
  - done.
  - destruct (AskQueryRequest.parse (CONNECTION_STRINGS p) b) as [req | e] eqn:Hparse;
      [| done].
    rewrite ask_question_environ, (parse_api_key _ _ _ Hparse).
    rewrite export_api_key_keyless by done.
    by destruct (DatabaseAgent._validate_inputs _ _ _).
Qed.

Lemma serve_keyless (p : Process) (r : router.Request) :
  keyless r ->
  environ (snd (router.serve p r)) = environ p.
Proof.
  intros Hkey. unfold router.serve.
  destruct (router.solve_dependencies _ p r); [| done].
  rewrite <- (path_operation_keyless p r Hkey).
  by destruct (router.path_operation p r).
Qed.

Lemma serve_all_keyless (rs : list router.Request) (p : Process) :
  Forall keyless rs ->
  environ (snd (router.serve_all p rs)) = environ p.
Proof.
  revert p. induction rs as [| r rs IH]; intros p Hall; simpl; [done |].
  apply Forall_cons in Hall as [Hr Hrs].
  rewrite <- (serve_keyless p r Hr), <- (IH (snd (router.serve p r)) Hrs).
  destruct (router.serve p r) as [resp p']. simpl.
  by destruct (router.serve_all p' rs).
Qed.

(** An accepted [/ask] request that supplies a key exports it. *)
Lemma serve_exports_key (p : Process) (r : router.Request) (b : AskQueryRequest.body)
    (k : string) :
  router.call r = router.POST_ask b ->
  AskQueryRequest.body_api_key b = Some k ->
  k <> EmptyString ->
  os.assignable k = true ->
  builds_agent p r b ->
  environ (snd (router.serve p r)) = <["OPENAI_API_KEY" := k]> (environ p).
Proof.
  intros Hcall Hkey Hk Hok ([user Hauth] & req & Hparse & Hvalid).
  rewrite serve_entered by (right; by exists user). simpl.
  unfold router.path_operation. rewrite Hcall, Hparse.
  rewrite ask_question_environ, Hvalid, (parse_api_key _ _ _ Hparse), Hkey.
  by rewrite export_api_key_supplied.
Qed.

End api_key.

(** C10, as amended: an [/ask] request that supplies a non-empty API key
    which the process environment accepts, and that gets as far as
    building its agent (the gateway lets it through, the body is valid
    and names a registered database), writes the key into
    [OPENAI_API_KEY] of the process environment, whatever the request
    then answers; the variable is not restored, so after any number of
    later requests that supply no key it still holds that key, and an
    agent set up without a key of its own builds its chat model with
    it. *)
Theorem api_key_override_outlives_request `{QA : QueryAgent}
    (p : Process) (r : router.Request) (b : AskQueryRequest.body) (k : string)
    (later : list router.Request) :
  router.call r = router.POST_ask b ->
  AskQueryRequest.body_api_key b = Some k ->
  k <> EmptyString ->
  os.assignable k = true ->
  builds_agent p r b ->
  Forall keyless later ->
  let p' := snd (router.serve_all (snd (router.serve p r)) later) in
  environ (snd (router.serve p r)) = <["OPENAI_API_KEY" := k]> (environ p)
  /\ os.getenv (environ p') "OPENAI_API_KEY" = Some k
  /\ forall (db_name model_name : string) (api_key : option string),
       truthy_opt api_key = false ->
       DatabaseAgent._setup_environment (CONNECTION_STRINGS p') db_name model_name
         api_key (environ p')
       = (uri ← DatabaseAgent._build_connection_uri (CONNECTION_STRINGS p') db_name;
          db ← SQLDatabase_from_uri uri;
          model ← ChatOpenAI model_name (Some k);
          Ok (uri, db, model),
          environ p').
Proof.
  intros Hcall Hkey Hk Hok Hbuilds Hlater p'.
  pose proof (serve_exports_key p r b k Hcall Hkey Hk Hok Hbuilds) as Hexport.
  assert (os.getenv (environ p') "OPENAI_API_KEY" = Some k) as Hkept.
  { unfold p', os.getenv. rewrite (serve_all_keyless later _ Hlater), Hexport.
    apply lookup_insert_eq. }
  split; [done |]. split; [done |].
  intros db_name model_name api_key Hnone.
  unfold DatabaseAgent._setup_environment.
  by rewrite (export_api_key_keyless _ _ Hnone), Hkept.
Qed.

Lemma api_key_override_outlives_request_witness :
  os.getenv
    (environ
       (snd (router.serve_all (QA := fixtures.echo_agent)
               (snd (router.serve (QA := fixtures.echo_agent) fixtures.process
                       (fixtures.request (Some fixtures.alice_token)
                          (fixtures.ask (Some "sk-caller-1")))))
               [fixtures.request (Some fixtures.alice_token) (fixtures.ask None);
                fixtures.request (Some fixtures.alice_token) router.GET_models])))
    "OPENAI_API_KEY"
  = Some "sk-caller-1".
Proof.
  eapply (api_key_override_outlives_request (QA := fixtures.echo_agent) fixtures.process
            (fixtures.request (Some fixtures.alice_token) (fixtures.ask (Some "sk-caller-1")))
            _ "sk-caller-1").
  - reflexivity.
  - reflexivity.
  - discriminate.
  - vm_compute. reflexivity.
  - split.
    + exists (jwt.JStr "alice"). vm_compute. reflexivity.
    + exists {| AskQueryRequest.question := "Quantos clientes?";
                AskQueryRequest.db_name := "Banco de dados 1";
                AskQueryRequest.model := "gpt-4";
                AskQueryRequest.api_key := Some "sk-caller-1" |}.
      split; vm_compute; reflexivity.
  - repeat constructor.
Defined.

(** C10, the claim as the specification states it, refuted: a key that
    the caller supplied is not always written.  A request that leaves
    [db_name] to its default, which is not a registered name, is refused
    before [_setup_environment] runs; and for a key that holds a NUL the
    assignment to [os.environ] raises, although the request got as far
    as building its agent.  Both are answered with status 500 and leave
    the variable unset. *)
Lemma supplied_api_key_is_not_always_exported :
  let default_db :=
    fixtures.request (Some fixtures.alice_token)
      (router.POST_ask {| AskQueryRequest.body_question := "Quantos clientes?";
                          AskQueryRequest.body_db_name := None;
                          AskQueryRequest.body_model := Some "gpt-4";
                          AskQueryRequest.body_api_key := Some "sk-caller-1" |}) in
  let nul_key :=
    fixtures.request (Some fixtures.alice_token) (fixtures.ask (Some fixtures.nul_key)) in
  status_code (fst (router.serve (QA := fixtures.echo_agent) fixtures.process default_db))
  = 500
  /\ snd (router.serve (QA := fixtures.echo_agent) fixtures.process default_db)
     = fixtures.process
  /\ status_code (fst (router.serve (QA := fixtures.echo_agent) fixtures.process nul_key))
     = 500
  /\ snd (router.serve (QA := fixtures.echo_agent) fixtures.process nul_key)
     = fixtures.process
  /\ os.getenv (environ fixtures.process) "OPENAI_API_KEY" = None.
Proof.
  split; [vm_compute; reflexivity |].
  split; [vm_compute; reflexivity |].
  split; [vm_compute; reflexivity |].
  split; vm_compute; reflexivity.
Qed.

(** With the collaborator that answers with the key its chat model was
    built with, the second caller, who supplied no key, is answered with
    the key of the first. *)
Example second_caller_uses_first_key :
  body
    (fst (router.serve (QA := fixtures.echo_agent)
            (snd (router.serve (QA := fixtures.echo_agent) fixtures.process
                    (fixtures.request (Some fixtures.alice_token)
                       (fixtures.ask (Some "sk-caller-1")))))
            (fixtures.request (Some fixtures.alice_token) (fixtures.ask None))))
  = CDict [("answer", VStr "sk-caller-1")].
Proof. vm_compute. reflexivity. Qed.

(* ===================================================================== *)
(** * Further properties of the code *)
(* ===================================================================== *)

(** ** The credential store *)

Lemma substring_short (s : string) (n : nat) :
  String.length s <= n -> substring 0 n s = s.
Proof.
  revert n. induction s as [| c s IH]; intros [| n]; simpl; [done | done | lia |].
  intros Hlen. rewrite IH; [done | lia].
Qed.

(** A plain password is encoded and hashed as it is. *)
Lemma plain_inv (password : string) :
  bcrypt.plain password = true ->
  codecs.encodable password = true
  /\ substring 0 bcrypt.max_password_bytes password = password.
Proof.
  unfold bcrypt.plain. intros Hplain.
  apply andb_true_iff in Hplain as [Hplain Hlen].
  apply andb_true_iff in Hplain as [Henc _].
  split; [done |]. apply substring_short. by apply Nat.leb_le.
Qed.

Lemma checkpw_hashpw (password password' salt : string) :
  bcrypt.plain password = true ->
  bcrypt.plain password' = true ->
  bcrypt.checkpw password (bcrypt.hashpw password' salt) = bool_decide (password = password').
Proof.
  intros [_ Hpw]%plain_inv [_ Hpw']%plain_inv.
  unfold bcrypt.checkpw, bcrypt.hashpw. simpl. rewrite Hpw, Hpw'.
  destruct (decide (password = password')) as [-> | Hne].
  - by rewrite !bool_decide_eq_true_2.
  - rewrite !bool_decide_eq_false_2; [done | done | congruence].
Qed.

Lemma fetchone_app (same : string -> string -> bool) (rows more : list sql.row)
    (u : string) (row : sql.row) :
  sql.fetchone same rows u = Some row -> sql.fetchone same (rows ++ more) u = Some row.
Proof.
  unfold sql.fetchone. rewrite filter_app.
  by destruct (filter (fun r => same (sql.username r) u = true) rows).
Qed.

Lemma fetchone_app_fresh (same : string -> string -> bool) (rows : list sql.row)
    (u : string) (row : sql.row) :
  sql.fetchone same rows u = None ->
  sql.fetchone same (rows ++ [row]) u = sql.fetchone same [row] u.
Proof.
  unfold sql.fetchone. rewrite filter_app. intros Hnone.
  apply head_None in Hnone. by rewrite Hnone.
Qed.

(** After an update for [u], a statement for [u] returns the row it
    returned before, under its stored name and with the new hash. *)
Lemma fetchone_update_same (same : string -> string -> bool) (rows : list sql.row)
    (u : string) (h : bcrypt.digest) (row : sql.row) :
  sql.fetchone same rows u = Some row ->
  sql.fetchone same (fst (sql.update same rows u h)) u = Some (sql.Row (sql.username row) h)
  /\ snd (sql.update same rows u h) <> 0.
Proof.
  unfold sql.fetchone, sql.update. simpl.
  induction rows as [| r rows IH]; simpl; [done |].
  rewrite !filter_cons. destruct (same (sql.username r) u) eqn:Hr; simpl.
  - rewrite decide_True by done. simpl. by intros [= ->].
  - rewrite !decide_False by (by rewrite Hr). apply IH.
Qed.

(** An update for [u] does not change what a statement for [u'] returns
    when no row is matched with both. *)
Lemma fetchone_update_other (same : string -> string -> bool) (rows : list sql.row)
    (u u' : string) (h : bcrypt.digest) :
  (forall stored, same stored u = true -> same stored u' = true -> False) ->
  sql.fetchone same (fst (sql.update same rows u h)) u' = sql.fetchone same rows u'.
Proof.
  intros Hne. unfold sql.fetchone, sql.update. simpl.
  induction rows as [| r rows IH]; simpl; [done |].
  rewrite !filter_cons. destruct (same (sql.username r) u) eqn:Hr; simpl.
  - rewrite !decide_False; [apply IH | |]; intros Hr'; by apply (Hne (sql.username r)).
  - destruct (decide (same (sql.username r) u' = true)); simpl; [done | apply IH].
Qed.

(** What a login answers once the row the store matches is known. *)
Lemma login_user_row (secret : string) (eng : sql.engine) (u pw : string) (row : sql.row) :
  sql.reachable eng = true ->
  sql.fetchone (sql.matches eng) (sql.Usuarios eng) u = Some row ->
  codecs.encodable pw = true ->
  UserService.login_user secret eng u pw
  = if bcrypt.checkpw pw (sql.password_hash row)
    then Ok {| UserService.access_token :=
                 UserService.create_access_token secret
                   {[ "username" := jwt.JStr (sql.username row) ]};
               UserService.token_type := "bearer" |}
    else Raise invalid_credentials.
Proof.
  intros Hup Hrow Henc. unfold UserService.login_user, sql.connect.
  rewrite Hup. simpl. rewrite Hrow, (encode_encodable _ Henc). simpl.
  by destruct (bcrypt.checkpw pw (sql.password_hash row)).
Qed.

(** The comparison of the examples is an equivalence. *)
Lemma case_insensitive_equivalence (rows : list sql.row) (up : bool) :
  sql.equivalence (sql.Engine rows up sql.case_insensitive).
Proof.
  unfold sql.equivalence, sql.case_insensitive. simpl.
  split; [| split].
  - intros a. apply String.eqb_refl.
  - intros a b Hab%String.eqb_eq. rewrite Hab. apply String.eqb_refl.
  - intros a b c Hab%String.eqb_eq Hbc%String.eqb_eq.
    rewrite Hab, Hbc. apply String.eqb_refl.
Qed.

(** X1: a password that differs from its confirmation is refused by
    [register_user] and by [reset_password] before the store is touched:
    both raise the same [ValueError] whether or not the store can be
    reached, and the credential table is left as it was. *)
Theorem password_mismatch_is_refused (eng : sql.engine)
    (salt username password confirm_password : string) :
  password <> confirm_password ->
  UserService.register_user eng salt username password confirm_password
  = (Raise (ValueError "As senhas não coincidem."), eng)
  /\ UserService.reset_password eng salt username password confirm_password
     = (Raise (ValueError "As senhas não coincidem."), eng).
Proof.
  intros Hne. unfold UserService.register_user, UserService.reset_password.
  by rewrite !bool_decide_eq_false_2.
Qed.

Lemma password_mismatch_is_refused_witness :
  UserService.reset_password fixtures.users "salt2" "alice" "n0va" "nova"
  = (Raise (ValueError "As senhas não coincidem."), fixtures.users).
Proof.
  apply (password_mismatch_is_refused fixtures.users "salt2" "alice" "n0va" "nova").
  discriminate.
Defined.

(** X2: registering a username that the store matches with no stored
    credential, with a matching confirmation, a password that every
    release of [bcrypt] hashes in full and the store reachable,
    succeeds; from then on a login with that username and password is
    given a token for that username, and a login with any other such
    password is refused.  The store is taken to match a name with
    itself. *)
Theorem register_then_login (secret : string) (eng : sql.engine)
    (salt username password : string) :
  sql.reachable eng = true ->
  unknown_username eng username ->
  sql.matches eng username username = true ->
  bcrypt.plain password = true ->
  exists eng',
    UserService.register_user eng salt username password password = (Ok tt, eng')
    /\ UserService.login_user secret eng' username password
       = Ok {| UserService.access_token :=
                 UserService.create_access_token secret
                   {[ "username" := jwt.JStr username ]};
               UserService.token_type := "bearer" |}
    /\ forall other : string,
         bcrypt.plain other = true ->
         other <> password ->
         UserService.login_user secret eng' username other = Raise invalid_credentials.
Proof.
  intros Hup Hfresh Hrefl Hplain. unfold unknown_username in Hfresh.
  set (new := sql.Row username (bcrypt.hashpw password salt)).
  exists (sql.with_rows eng (sql.Usuarios eng ++ [new])).
  assert (sql.fetchone (sql.matches eng) (sql.Usuarios eng ++ [new]) username = Some new)
    as Hrow.
  { rewrite (fetchone_app_fresh _ _ _ _ Hfresh). unfold sql.fetchone.
    rewrite filter_cons. by rewrite decide_True. }
  split; [| split].
  - unfold UserService.register_user, sql.connect, sql.insert.
    rewrite bool_decide_eq_true_2 by done. rewrite Hup. simpl. by rewrite Hfresh.
  - rewrite (login_user_row secret (sql.with_rows eng _) _ _ new Hup Hrow)
      by apply (plain_inv _ Hplain).
    simpl. rewrite checkpw_hashpw by done.
    by rewrite bool_decide_eq_true_2.
  - intros other Hother Hne.
    rewrite (login_user_row secret (sql.with_rows eng _) _ _ new Hup Hrow)
      by apply (plain_inv _ Hother).
    simpl. rewrite checkpw_hashpw by done.
    by rewrite bool_decide_eq_false_2.
Qed.

Lemma register_then_login_witness :
  exists eng',
    UserService.register_user fixtures.users "salt2" "bob" "pw2" "pw2" = (Ok tt, eng')
    /\ UserService.login_user "s3cr3t" eng' "bob" "pw2"
       = Ok {| UserService.access_token :=
                 UserService.create_access_token "s3cr3t" {[ "username" := jwt.JStr "bob" ]};
               UserService.token_type := "bearer" |}
    /\ forall other : string,
         bcrypt.plain other = true ->
         other <> "pw2" ->
         UserService.login_user "s3cr3t" eng' "bob" other = Raise invalid_credentials.
Proof.
  apply (register_then_login "s3cr3t" fixtures.users "salt2" "bob" "pw2").
  - reflexivity.
  - vm_compute. reflexivity.
  - vm_compute. reflexivity.
  - vm_compute. reflexivity.
Defined.

(** X3: resetting the password of a username that the store matches
    with a stored credential, with a matching confirmation, a password
    that every release of [bcrypt] hashes in full and the store
    reachable, succeeds; from then on a login with the new password is
    given a token for the name the credential is stored under, and a
    login with any other such password -- the old one included -- is
    refused. *)
Theorem reset_then_login (secret : string) (eng : sql.engine)
    (salt username new_password : string) (row : sql.row) :
  sql.reachable eng = true ->
  sql.fetchone (sql.matches eng) (sql.Usuarios eng) username = Some row ->
  bcrypt.plain new_password = true ->
  exists eng',
    UserService.reset_password eng salt username new_password new_password = (Ok tt, eng')
    /\ UserService.login_user secret eng' username new_password
       = Ok {| UserService.access_token :=
                 UserService.create_access_token secret
                   {[ "username" := jwt.JStr (sql.username row) ]};
               UserService.token_type := "bearer" |}
    /\ forall other : string,
         bcrypt.plain other = true ->
         other <> new_password ->
         UserService.login_user secret eng' username other = Raise invalid_credentials.
Proof.
  intros Hup Hrow Hplain.
  set (h := bcrypt.hashpw new_password salt).
  destruct (fetchone_update_same _ _ _ h _ Hrow) as [Hnew Hcount].
  exists (sql.with_rows eng
            (fst (sql.update (sql.matches eng) (sql.Usuarios eng) username h))).
  split; [| split].
  - unfold UserService.reset_password, sql.connect.
    rewrite bool_decide_eq_true_2 by done. rewrite Hup. cbn [negb]. fold h.
    destruct (sql.update (sql.matches eng) (sql.Usuarios eng) username h)
      as [rows' rowcount]. simpl in *.
    by destruct rowcount.
  - rewrite (login_user_row secret (sql.with_rows eng _) _ _ _ Hup Hnew)
      by apply (plain_inv _ Hplain).
    simpl. unfold h. rewrite checkpw_hashpw by done.
    by rewrite bool_decide_eq_true_2.
  - intros other Hother Hne.
    rewrite (login_user_row secret (sql.with_rows eng _) _ _ _ Hup Hnew)
      by apply (plain_inv _ Hother).
    simpl. unfold h. rewrite checkpw_hashpw by done.
    by rewrite bool_decide_eq_false_2.
Qed.

Lemma reset_then_login_witness :
  exists eng',
    UserService.reset_password fixtures.users "salt2" "ALICE" "n0va" "n0va" = (Ok tt, eng')
    /\ UserService.login_user "s3cr3t" eng' "ALICE" "n0va"
       = Ok {| UserService.access_token := fixtures.alice_token;
               UserService.token_type := "bearer" |}
    /\ forall other : string,
         bcrypt.plain other = true ->
         other <> "n0va" ->
         UserService.login_user "s3cr3t" eng' "ALICE" other = Raise invalid_credentials.
Proof.
  apply (reset_then_login "s3cr3t" fixtures.users "salt2" "ALICE" "n0va"
           (sql.Row "alice" (bcrypt.hashpw "pw1" "salt1"))).
  - reflexivity.
  - vm_compute. reflexivity.
  - vm_compute. reflexivity.
Defined.

(** X4: neither a registration nor a password reset for one username
    changes what a login with another username answers, where another
    username is one that the store does not match with the first. *)
Theorem other_users_are_untouched (secret : string) (eng : sql.engine)
    (salt username password confirm_password : string) (other other_password : string) :
  sql.equivalence eng ->
  sql.matches eng username other = false ->
  UserService.login_user secret
    (snd (UserService.register_user eng salt username password confirm_password))
    other other_password
  = UserService.login_user secret eng other other_password
  /\ UserService.login_user secret
       (snd (UserService.reset_password eng salt username password confirm_password))
       other other_password
     = UserService.login_user secret eng other other_password.
Proof.
  intros (_ & Hsym & Htrans) Hne.
  set (h := bcrypt.hashpw password salt).
  assert (forall rows',
            sql.fetchone (sql.matches eng) rows' other
            = sql.fetchone (sql.matches eng) (sql.Usuarios eng) other ->
            UserService.login_user secret (sql.with_rows eng rows') other other_password
            = UserService.login_user secret eng other other_password) as Hlogin.
  { intros rows' Hrows. unfold UserService.login_user, sql.connect. simpl.
    destruct (sql.reachable eng); simpl; [| done]. by rewrite Hrows. }
  split.
  - unfold UserService.register_user. fold h.
    destruct (bool_decide (password = confirm_password)); simpl; [| done].
    unfold sql.connect, sql.insert.
    destruct (sql.reachable eng) eqn:Hup; simpl; [| done].
    destruct (sql.fetchone (sql.matches eng) (sql.Usuarios eng) username) eqn:Hrow;
      simpl; [done |].
    apply Hlogin.
    unfold sql.fetchone. rewrite filter_app, filter_cons, decide_False.
    + by rewrite filter_nil, app_nil_r.
    + simpl. by rewrite Hne.
  - unfold UserService.reset_password. fold h.
    destruct (bool_decide (password = confirm_password)); cbn [negb]; [| done].
    unfold sql.connect.
    destruct (sql.reachable eng) eqn:Hup; [| done].
    assert (sql.fetchone (sql.matches eng)
              (fst (sql.update (sql.matches eng) (sql.Usuarios eng) username h)) other
            = sql.fetchone (sql.matches eng) (sql.Usuarios eng) other) as Hother.
    { apply fetchone_update_other. intros stored Hu Ho.
      apply Hsym in Hu. rewrite (Htrans _ _ _ Hu Ho) in Hne. discriminate. }
    destruct (sql.update (sql.matches eng) (sql.Usuarios eng) username h)
      as [rows' rowcount]. simpl in Hother.
    destruct (rowcount =? 0)%nat; simpl; by apply Hlogin.
Qed.

Lemma other_users_are_untouched_witness :
  UserService.login_user "s3cr3t"
    (snd (UserService.reset_password fixtures.users "salt2" "mallory" "x" "x"))
    "alice" "pw1"
  = UserService.login_user "s3cr3t" fixtures.users "alice" "pw1".
Proof.
  apply (other_users_are_untouched "s3cr3t" fixtures.users "salt2" "mallory" "x" "x"
           "alice" "pw1").
  - apply case_insensitive_equivalence.
  - vm_compute. reflexivity.
Defined.

(** Under the comparison of the examples a reset for [ALICE ] rewrites
    the credential stored as [alice]: the old password of [alice] is
    refused from then on. *)
Example reset_reaches_the_matched_credential :
  UserService.login_user "s3cr3t"
    (snd (UserService.reset_password fixtures.users "salt2" "ALICE " "n0va" "n0va"))
    "alice" "pw1"
  = Raise invalid_credentials.
Proof. vm_compute. reflexivity. Qed.

(** ** The registry service *)

(** X5: a removal that succeeded is final and local: the name removed no
    longer resolves, and every other name resolves as before. *)
Theorem resolve_after_remove (conns conns' : gmap string string) (name : string)
    (confirmation : list (string * string)) :
  DatabaseService.delete_database conns name = (Ok confirmation, conns') ->
  (exists e, Registry.NotFoundError e /\
     DatabaseService.get_connection_string conns' name = Raise e)
  /\ forall other : string,
       other <> name ->
       DatabaseService.get_connection_string conns' other
       = DatabaseService.get_connection_string conns other.
Proof.
  intros Hdel.
  destruct (delete_database_cases conns name) as [(_ & e & _ & Heq) | (Hname & _ & Heq)];
    rewrite Heq in Hdel; [done |].
  injection Hdel as _ <-. split.
  - unfold DatabaseService.get_connection_string.
    rewrite lookup_delete_eq. apply truthy_true in Hname. rewrite Hname. simpl.
    eexists. split; [by eexists | done].
  - intros other Hother. unfold DatabaseService.get_connection_string.
    by rewrite lookup_delete_ne.
Qed.

Lemma resolve_after_remove_witness :
  exists e, Registry.NotFoundError e /\
    DatabaseService.get_connection_string
      (delete "Banco de dados 2" (CONNECTION_STRINGS fixtures.process)) "Banco de dados 2"
    = Raise e.
Proof.
  apply (resolve_after_remove (CONNECTION_STRINGS fixtures.process) _ "Banco de dados 2"
           [("message", "Banco de dados 'Banco de dados 2' removido com sucesso.")]).
  rewrite (surjective_pairing (DatabaseService.delete_database _ _)).
  f_equal; vm_compute; reflexivity.
Defined.

(** X6: a database that was just added can be removed again, and the
    registry is then exactly what it was before the addition. *)
Theorem remove_after_add (conns conns' : gmap string string)
    (name server database user password : string) (confirmation : list (string * string)) :
  DatabaseService.create_database conns name server database user password
  = (Ok confirmation, conns') ->
  DatabaseService.delete_database conns' name
  = (Ok [("message", "Banco de dados '" ++ name ++ "' removido com sucesso.")], conns).
Proof.
  intros Hadd.
  destruct (create_database_cases conns name server database user password)
    as [(_ & e & _ & Heq) | [(_ & _ & e & _ & Heq) | (Hb & Hfree & Heq)]];
    rewrite Heq in Hadd; try discriminate.
  injection Hadd as _ <-.
  unfold DatabaseService.delete_database.
  assert (truthy name = true) as ->.
  { simpl in Hb. by destruct (truthy name). }
  simpl. rewrite (proj2 (dict_in_true name _)) by (rewrite lookup_insert_eq; by eexists).
  simpl. by rewrite delete_insert_id.
Qed.

Lemma remove_after_add_witness :
  DatabaseService.delete_database
    (snd (DatabaseService.create_database (CONNECTION_STRINGS fixtures.process)
            "Vendas" "10.0.0.5" "sales" "reader" "s3nha"))
    "Vendas"
  = (Ok [("message", "Banco de dados 'Vendas' removido com sucesso.")],
     CONNECTION_STRINGS fixtures.process).
Proof.
  apply (remove_after_add (CONNECTION_STRINGS fixtures.process)
           (snd (DatabaseService.create_database (CONNECTION_STRINGS fixtures.process)
                   "Vendas" "10.0.0.5" "sales" "reader" "s3nha"))
           "Vendas" "10.0.0.5" "sales" "reader" "s3nha"
           [("message", "Banco de dados 'Vendas' criado com sucesso.")]).
  rewrite (surjective_pairing (DatabaseService.create_database _ _ _ _ _ _)).
  f_equal; vm_compute; reflexivity.
Defined.

(** X7: the three operations of the service never fail with status 500:
    whatever [create_database] raises has status 400, whatever
    [delete_database] or [get_connection_string] raises has status 404,
    and a failed operation leaves the registry as it was. *)
Theorem service_errors_are_400_or_404 (conns : gmap string string)
    (name server database user password : string) :
  (forall e conns',
     DatabaseService.create_database conns name server database user password
     = (Raise e, conns') ->
     conns' = conns /\ exists detail, e = HTTPException HTTP_400_BAD_REQUEST detail)
  /\ (forall e conns',
        DatabaseService.delete_database conns name = (Raise e, conns') ->
        conns' = conns /\ exists detail, e = HTTPException HTTP_404_NOT_FOUND detail)
  /\ (forall e,
        DatabaseService.get_connection_string conns name = Raise e ->
        exists detail, e = HTTPException HTTP_404_NOT_FOUND detail).
Proof.
  split; [| split].
  - intros e conns' Hadd.
    destruct (create_database_cases conns name server database user password)
      as [(_ & e' & (msg & _ & ->) & Heq) | [(_ & _ & e' & -> & Heq) | (_ & _ & Heq)]];
      rewrite Heq in Hadd; [| | done]; injection Hadd as <- <-; eauto.
  - intros e conns' Hdel.
    destruct (delete_database_cases conns name) as [(_ & e' & [msg ->] & Heq) | (_ & _ & Heq)];
      rewrite Heq in Hdel; [| done]. injection Hdel as <- <-; eauto.
  - intros e. unfold DatabaseService.get_connection_string.
    destruct (truthy name); simpl; [| intros [= <-]; eauto].
    destruct (conns !! name); simpl; [done | intros [= <-]; eauto].
Qed.

Lemma service_errors_are_400_or_404_witness :
  exists detail,
    HTTPException 400 "Servidor é obrigatório" = HTTPException HTTP_400_BAD_REQUEST detail.
Proof.
  apply (proj1 (service_errors_are_400_or_404 (CONNECTION_STRINGS fixtures.process)
                  "Vendas" EmptyString "sales" "reader" "s3nha")
           _ (CONNECTION_STRINGS fixtures.process)).
  rewrite (surjective_pairing (DatabaseService.create_database _ _ _ _ _ _)).
  f_equal; vm_compute; reflexivity.
Defined.

(** ** The agent's own registry methods *)

(** X21: [add_connection] and [remove_connection] undo each other: a
    connection that was just added can be removed and the registry is
    then what it was, and a connection that was just removed can be added
    back under its name and connection string.  [add_connection] only
    succeeds on a free name and [remove_connection] only on a registered
    one. *)
Theorem add_connection_remove_connection (conns conns' : gmap string string)
    (db_name connection_string : string) :
  (DatabaseAgent.add_connection conns db_name connection_string = Ok conns' ->
   conns !! db_name = None
   /\ conns' !! db_name = Some connection_string
   /\ DatabaseAgent.remove_connection conns' db_name = Ok conns)
  /\ (DatabaseAgent.remove_connection conns db_name = Ok conns' ->
      conns !! db_name = Some connection_string ->
      conns' !! db_name = None
      /\ DatabaseAgent.add_connection conns' db_name connection_string = Ok conns).
Proof.
  unfold DatabaseAgent.add_connection, DatabaseAgent.remove_connection. split.
  - destruct (dict_in db_name conns) eqn:Hin; [done |]. intros [= <-].
    apply dict_in_false in Hin. split; [done |].
    split; [apply lookup_insert_eq |].
    rewrite (proj2 (dict_in_true db_name _)) by (rewrite lookup_insert_eq; by eexists).
    simpl. by rewrite delete_insert_id.
  - destruct (dict_in db_name conns) eqn:Hin; simpl; [| done]. intros [= <-] Hcs.
    split; [apply lookup_delete_eq |].
    rewrite (proj2 (dict_in_false db_name _)) by apply lookup_delete_eq.
    by rewrite insert_delete_id.
Qed.

Lemma add_connection_remove_connection_witness :
  DatabaseAgent.remove_connection
    (<["Vendas" := "DSN=sales;"]> (CONNECTION_STRINGS fixtures.process)) "Vendas"
  = Ok (CONNECTION_STRINGS fixtures.process).
Proof.
  apply (proj1 (add_connection_remove_connection (CONNECTION_STRINGS fixtures.process)
                  (<["Vendas" := "DSN=sales;"]> (CONNECTION_STRINGS fixtures.process))
                  "Vendas" "DSN=sales;")).
  unfold DatabaseAgent.add_connection.
  assert (dict_in "Vendas" (CONNECTION_STRINGS fixtures.process) = false) as ->
    by (vm_compute; reflexivity).
  reflexivity.
Defined.

(** ** The gateway *)

(** X22: the gateway only lets through a request that carries a token
    signed with the secret of the process and the algorithm of the
    service; the user it returns is the non-empty [username] claim of that
    token, and an expiry the token carries has not passed. *)
Theorem gateway_accepts_only_signed_tokens (p : Process)
    (authorization : option jwt.token) (now : Z) (user : jwt.claim) :
  authenticate p authorization now = Ok user ->
  exists payload,
    authorization = Some (jwt.encode payload (SECRET_KEY (globals p)) ALGORITHM)
    /\ payload !! "username" = Some user
    /\ jwt.truthy_claim (Some user) = true
    /\ forall exp, payload !! "exp" = Some (jwt.JNum exp) -> (now < exp)%Z.
Proof.
  unfold authenticate, bearer_scheme.
  destruct authorization as [t |]; simpl; [| done].
  unfold try_except.
  destruct (UserService.verify_token (SECRET_KEY (globals p)) t now) as [u | e] eqn:Hv;
    [| done].
  intros [= <-].
  destruct (decode_inv (SECRET_KEY (globals p)) t now)
    as [(_ & e & He & Htype & Hdec) | (payload & -> & Hdec)].
  { by rewrite (verify_token_decode_error _ _ _ _ Hdec) in Hv. }
  exists payload. split; [done |].
  destruct (jwt.validate_claims payload now) as [err |] eqn:Hval.
  { by rewrite (verify_token_decode_error _ _ _ _ Hdec) in Hv. }
  unfold UserService.verify_token in Hv. rewrite Hdec in Hv.
  destruct (payload !! "username") as [c |] eqn:Hc; [| done].
  destruct (jwt.truthy_claim (Some c)) eqn:Htruthy; simpl in Hv; [| done].
  injection Hv as ->. split; [done |]. split; [done |].
  intros exp Hexp.
  destruct (Z.ltb_spec now exp) as [Hlt | Hge]; [done |]. exfalso.
  revert Hval. unfold jwt.validate_claims.
  destruct (jwt._validate_iat payload now); [done |].
  destruct (jwt._validate_nbf payload now); [done |].
  unfold jwt._validate_exp. rewrite Hexp. simpl.
  by rewrite (proj2 (Z.leb_le exp now) Hge).
Qed.

Lemma gateway_accepts_only_signed_tokens_witness :
  exists payload,
    Some fixtures.alice_token = Some (jwt.encode payload "s3cr3t" ALGORITHM)
    /\ payload !! "username" = Some (jwt.JStr "alice")
    /\ jwt.truthy_claim (Some (jwt.JStr "alice")) = true
    /\ forall exp, payload !! "exp" = Some (jwt.JNum exp) -> (1700000000 < exp)%Z.
Proof.
  apply (gateway_accepts_only_signed_tokens fixtures.process (Some fixtures.alice_token)
           1700000000 (jwt.JStr "alice")).
  vm_compute. reflexivity.
Defined.


(** ** Start-up, once more *)







(** ** Connection URIs *)

Lemma hex_digit_safe (n : nat) : n < 16 -> urllib.always_safe (urllib.hex_digit n) = true.
Proof.
  intros Hn. do 16 (destruct n as [| n]; [reflexivity |]). lia.
Qed.

Lemma nat_of_ascii_bound (c : ascii) : nat_of_ascii c < 256.
Proof. destruct c as [[] [] [] [] [] [] [] []]; vm_compute; lia. Qed.

Lemma quote_plus_cons (c : ascii) (s : string) :
  urllib.quote_plus (String c s)
  = if urllib.always_safe c then String c (urllib.quote_plus s)
    else if (nat_of_ascii c =? 32)%nat then String "+"%char (urllib.quote_plus s)
    else String "%"%char
           (String (urllib.hex_digit (nat_of_ascii c / 16))
              (String (urllib.hex_digit (nat_of_ascii c mod 16)) (urllib.quote_plus s))).
Proof. reflexivity. Qed.

Lemma quote_plus_chars (s : string) :
  Forall (fun c => quoted_char c = true) (list_ascii_of_string (urllib.quote_plus s)).
Proof.
  induction s as [| c s IH]; [constructor |].
  rewrite quote_plus_cons.
  destruct (urllib.always_safe c) eqn:Hsafe.
  - cbn [list_ascii_of_string]. constructor; [| done]. unfold quoted_char. by rewrite Hsafe.
  - destruct (nat_of_ascii c =? 32)%nat; cbn [list_ascii_of_string].
    + constructor; [reflexivity | done].
    + pose proof (nat_of_ascii_bound c) as Hc.
      constructor; [reflexivity |].
      constructor.
      { unfold quoted_char. rewrite hex_digit_safe; [done |].
        apply Nat.Div0.div_lt_upper_bound. lia. }
      constructor; [| done].
      unfold quoted_char. rewrite hex_digit_safe; [done |].
      apply Nat.mod_upper_bound. lia.
Qed.

Lemma quote_plus_length (s : string) :
  String.length (urllib.quote_plus s) <= 3 * String.length s.
Proof.
  induction s as [| c s IH]; [done |].
  rewrite quote_plus_cons.
  destruct (urllib.always_safe c); [cbn [String.length]; lia |].
  destruct (nat_of_ascii c =? 32)%nat; cbn [String.length]; lia.
Qed.

(** X9: the URI built for a registered database, whose connection
    string is text that can be encoded, is the fixed scheme followed by
    the quoted connection string, in which only unreserved characters,
    [+] and [%] occur: no separator of the connection string ([;], [=],
    braces, spaces) reaches the URI unquoted.  The quoted string has at
    most three times as many characters as the UTF-8 encoding of the
    connection string has bytes.  For a name that is not registered
    there is no URI. *)
Theorem connection_uri_is_quoted (conns : gmap string string) (db_name : string) :
  (forall conn_str,
     conns !! db_name = Some conn_str ->
     codecs.encodable conn_str = true ->
     exists quoted,
       DatabaseAgent._build_connection_uri conns db_name
       = Ok ("mssql+pyodbc:///?odbc_connect=" ++ quoted)
       /\ Forall (fun c => quoted_char c = true) (list_ascii_of_string quoted)
       /\ String.length quoted <= 3 * String.length conn_str)
  /\ (conns !! db_name = None ->
      exists e, DatabaseAgent._build_connection_uri conns db_name = Raise e).
Proof.
  unfold DatabaseAgent._build_connection_uri. split.
  - intros conn_str -> _. exists (urllib.quote_plus conn_str).
    split; [done |]. split; [apply quote_plus_chars | apply quote_plus_length].
  - intros ->. by eexists.
Qed.

Lemma connection_uri_is_quoted_witness :
  exists quoted,
    DatabaseAgent._build_connection_uri (<["Vendas" := "DSN=sales;"]> ∅) "Vendas"
    = Ok ("mssql+pyodbc:///?odbc_connect=" ++ quoted)
    /\ Forall (fun c => quoted_char c = true) (list_ascii_of_string quoted)
    /\ String.length quoted <= 3 * String.length "DSN=sales;".
Proof.
  apply (proj1 (connection_uri_is_quoted (<["Vendas" := "DSN=sales;"]> ∅) "Vendas")).
  - apply lookup_insert_eq.
  - vm_compute. reflexivity.
Defined.

(** ** Token lifetime *)

(** X10: a token created for a non-empty username with an expiry is
    accepted, and yields that username, at every time before the expiry;
    from the expiry on it is refused as expired.  (The tokens that login
    creates carry no expiry.) *)
Theorem token_lifetime (secret username : string) (exp now : Z) :
  username <> EmptyString ->
  UserService.verify_token secret
    (UserService.create_access_token secret
       (<["exp" := jwt.JNum exp]> {[ "username" := jwt.JStr username ]}))
    now
  = if (exp <=? now)%Z then Raise token_expired else Ok (jwt.JStr username).
Proof.
  intros Hname. apply truthy_true in Hname.
  set (payload := <["exp" := jwt.JNum exp]> {[ "username" := jwt.JStr username ]}
                  : gmap string jwt.claim).
  assert (payload !! "iat" = None) as Hiat
    by (unfold payload; rewrite lookup_insert_ne by done; by apply lookup_singleton_ne).
  assert (payload !! "nbf" = None) as Hnbf
    by (unfold payload; rewrite lookup_insert_ne by done; by apply lookup_singleton_ne).
  assert (payload !! "aud" = None) as Haud
    by (unfold payload; rewrite lookup_insert_ne by done; by apply lookup_singleton_ne).
  assert (payload !! "exp" = Some (jwt.JNum exp)) as Hexp
    by (unfold payload; apply lookup_insert_eq).
  assert (payload !! "username" = Some (jwt.JStr username)) as Huser
    by (unfold payload; rewrite lookup_insert_ne by done; apply lookup_singleton_eq).
  unfold UserService.verify_token, UserService.create_access_token, jwt.decode, jwt.encode.
  rewrite bool_decide_eq_true_2 by (apply list_elem_of_singleton; done).
  rewrite bool_decide_eq_true_2 by done. cbn [negb].
  unfold jwt.validate_claims, jwt._validate_iat, jwt._validate_nbf, jwt._validate_exp,
    jwt._validate_aud.
  rewrite Hiat, Hnbf, Haud, Hexp. cbn [jwt.numeric jwt.int jwt.truthy_claim].
  destruct (exp <=? now)%Z; [done |].
  rewrite Huser. simpl. by rewrite Hname.
Qed.

Lemma token_lifetime_witness :
  UserService.verify_token "s3cr3t"
    (UserService.create_access_token "s3cr3t"
       (<["exp" := jwt.JNum 1800000000]> {[ "username" := jwt.JStr "alice" ]}))
    1700000000
  = Ok (jwt.JStr "alice").
Proof.
  apply (token_lifetime "s3cr3t" "alice" 1800000000 1700000000). discriminate.
Defined.

(** ** What the routes answer *)

Lemma with_environ_id (p : Process) : with_environ p (environ p) = p.
Proof. by destruct p. Qed.

Section route_facts.
Context `{QA : QueryAgent}.

(** The status of the response to what each path operation returns or
    raises. *)
Lemma path_operation_status (p : Process) (r : router.Request) :
  In (status_code (router.respond (router.call r) (fst (router.path_operation p r))))
     (handler_statuses (router.call r)).
Proof.
  unfold router.path_operation.
  destruct (router.call r) as [req | req | req | n s d u pw | | n | | b]; simpl.
  - unfold controllers.register_user.
    destruct (UserService.register_user _ _ _ _ _) as [[[] | e] eng]; simpl; [tauto |].
    destruct e; simpl; tauto.
  - unfold controllers.login.
    destruct (UserService.login_user _ _ _ _) as [res | e]; simpl; [tauto |].
    destruct e; simpl; tauto.
  - unfold controllers.reset_password.
    destruct (UserService.reset_password _ _ _ _ _) as [[[] | e] eng]; simpl; [tauto |].
    destruct e; simpl; tauto.
  - unfold controllers.create_database.
    destruct (DatabaseService.create_database _ _ _ _ _ _) as [[msg | e] conns]; simpl; tauto.
  - tauto.
  - unfold controllers.delete_database.
    destruct (delete_database_cases (CONNECTION_STRINGS p) n)
      as [(_ & e & [detail ->] & ->) | (_ & _ & ->)]; simpl; tauto.
  - tauto.
  - destruct (AskQueryRequest.parse (CONNECTION_STRINGS p) b) as [req | e]; simpl; [| tauto].
    unfold controllers.ask_question.
    destruct (DatabaseAgent.__init__ _ _ _ _ _) as [[a | e] env]; simpl; [| tauto].
    destruct (DatabaseAgent.ask_question a (AskQueryRequest.question req)); simpl; tauto.
Qed.

(** X11: the statuses of every route, for the requests that FastAPI can
    bind to the parameters of their route (see [router.Call]).  The
    response to such a request is either the gateway's refusal (401 or
    403, never on [/login]) or has one of the statuses of its path
    operation: 201, 400 or 500 for [/register]; 200,
    401 or 500 for [/login]; 200, 400 or 500 for [/reset_password]; 200
    for the two listings; 200, 422 or 500 for [/ask]; and only 500 for
    [/create_database] and [/delete_database], which never answer 201,
    200, 400 or 404. *)
Theorem route_statuses (p : Process) (r : router.Request) :
  In (status_code (fst (router.serve p r))) (handler_statuses (router.call r))
  \/ (unauthenticated p r
      /\ router.dependencies (router.call r) = [router.Depends_get_current_user]
      /\ In (status_code (fst (router.serve p r))) [401; 403]).
Proof.
  destruct (authenticate p (router.authorization r) (router.now r)) as [user | e] eqn:Hauth.
  - left. rewrite serve_entered by (right; by exists user). apply path_operation_status.
  - destruct (router.call r) as [req | req | req | n s d u pw | | n | | b] eqn:Hcall;
      try (right; split; [by exists e |]; split; [done |];
           rewrite (serve_refused p r e) by (by rewrite ?Hcall);
           destruct (authenticate_error _ _ _ _ Hauth) as (sc & detail & -> & [-> | ->]);
           simpl; tauto).
    left. rewrite serve_entered by (left; by rewrite Hcall).
    rewrite <- Hcall. apply path_operation_status.
Qed.

(** X12: an authenticated [POST /create_database] with no empty field and
    a free name registers the connection string and still answers 500:
    what the path operation returns nests the dict of the service under
    [message] and does not fit the response model. *)
Theorem create_database_registers_and_answers_500
    (p : Process) (r : router.Request) (db_name server database user password : string)
    (acting : jwt.claim) :
  router.call r = router.POST_create_database db_name server database user password ->
  authenticate p (router.authorization r) (router.now r) = Ok acting ->
  Registry.blank [db_name; server; database; user; password] = false ->
  CONNECTION_STRINGS p !! db_name = None ->
  fst (router.path_operation p r)
  = Ok (CDict [("message",
                VDict [("message", "Banco de dados '" ++ db_name ++ "' criado com sucesso.")])])
  /\ status_code (fst (router.serve p r)) = HTTP_500_INTERNAL_SERVER_ERROR
  /\ snd (router.serve p r)
     = with_connections p
         (<[db_name := DatabaseService.connection_string server database user password]>
            (CONNECTION_STRINGS p)).
Proof.
  intros Hcall Hauth Hblank Hfree.
  rewrite serve_entered by (right; by exists acting).
  unfold router.path_operation. rewrite Hcall. unfold controllers.create_database.
  destruct (create_database_cases (CONNECTION_STRINGS p) db_name server database user password)
    as [(Hb & _) | [(_ & Hreg & _) | (_ & _ & ->)]].
  - congruence.
  - rewrite Hfree in Hreg. by destruct Hreg.
  - done.
Qed.

(** X13: an authenticated [DELETE /delete_database/{db_name}] always
    answers 500.  For a registered name the entry is removed all the same
    (the returned value does not fit the response model); for a name that
    is not registered the 404 of the service is an [HTTPException], which
    the route's [except ValueError] does not catch and its [except
    Exception] turns into 500. *)
Theorem delete_database_answers_500
    (p : Process) (r : router.Request) (db_name : string) (acting : jwt.claim) :
  router.call r = router.DELETE_delete_database db_name ->
  authenticate p (router.authorization r) (router.now r) = Ok acting ->
  db_name <> EmptyString ->
  status_code (fst (router.serve p r)) = HTTP_500_INTERNAL_SERVER_ERROR
  /\ snd (router.serve p r) = with_connections p (delete db_name (CONNECTION_STRINGS p)).
Proof.
  intros Hcall Hauth Hname.
  rewrite serve_entered by (right; by exists acting).
  unfold router.path_operation. rewrite Hcall. unfold controllers.delete_database.
  destruct (delete_database_cases (CONNECTION_STRINGS p) db_name)
    as [([Hempty | Hfree] & e & [detail ->] & ->) | (_ & _ & ->)]; simpl.
  - done.
  - split; [done |]. by rewrite delete_id.
  - done.
Qed.

(** X14: when the credential store cannot be reached, [/login] answers
    500 whatever the credentials, and an authenticated [/register] or
    [/reset_password] with matching passwords answers 500 for every
    password that [bcrypt] hashes (for the others the hashing, which
    comes before the store is tried, raises and is answered 400); the
    process is left as it was. *)
Theorem storage_failure_is_500 (p : Process) (r : router.Request) :
  sql.reachable (engine p) = false ->
  (forall req, router.call r = router.POST_login req ->
     status_code (fst (router.serve p r)) = HTTP_500_INTERNAL_SERVER_ERROR
     /\ snd (router.serve p r) = p)
  /\ (forall req acting,
        router.call r = router.POST_register req ->
        authenticate p (router.authorization r) (router.now r) = Ok acting ->
        RegisterRequest.password req = RegisterRequest.confirm_password req ->
        bcrypt.plain (RegisterRequest.password req) = true ->
        status_code (fst (router.serve p r)) = HTTP_500_INTERNAL_SERVER_ERROR
        /\ snd (router.serve p r) = p)
  /\ (forall req acting,
        router.call r = router.POST_reset_password req ->
        authenticate p (router.authorization r) (router.now r) = Ok acting ->
        ResetPasswordRequest.password req = ResetPasswordRequest.confirm_password req ->
        bcrypt.plain (ResetPasswordRequest.password req) = true ->
        status_code (fst (router.serve p r)) = HTTP_500_INTERNAL_SERVER_ERROR
        /\ snd (router.serve p r) = p).
Proof.
  intros Hdown. split; [| split].
  - intros req Hcall. rewrite serve_entered by (left; by rewrite Hcall).
    unfold router.path_operation. rewrite Hcall.
    unfold controllers.login, UserService.login_user, sql.connect. by rewrite Hdown.
  - intros req acting Hcall Hauth Hsame _.
    rewrite serve_entered by (right; by exists acting).
    unfold router.path_operation. rewrite Hcall.
    unfold controllers.register_user, UserService.register_user, sql.connect.
    rewrite bool_decide_eq_true_2 by done. rewrite Hdown. simpl.
    split; [done | apply with_engine_id].
  - intros req acting Hcall Hauth Hsame _.
    rewrite serve_entered by (right; by exists acting).
    unfold router.path_operation. rewrite Hcall.
    unfold controllers.reset_password, UserService.reset_password, sql.connect.
    rewrite bool_decide_eq_true_2 by done. rewrite Hdown. simpl.
    split; [done | apply with_engine_id].
Qed.

(** X15: an authenticated [GET /databases] answers 200 with the
    registered names, each exactly once, and changes nothing. *)
Theorem databases_lists_the_registry (p : Process) (r : router.Request)
    (acting : jwt.claim) :
  router.call r = router.GET_databases ->
  authenticate p (router.authorization r) (router.now r) = Ok acting ->
  exists names,
    router.serve p r = ({| status_code := HTTP_200_OK; body := CList names |}, p)
    /\ NoDup names
    /\ forall name, name ∈ names <-> is_Some (CONNECTION_STRINGS p !! name).
Proof.
  intros Hcall Hauth.
  exists (map fst (map_to_list (CONNECTION_STRINGS p))). split; [| split].
  - rewrite serve_entered by (right; by exists acting).
    unfold router.path_operation. by rewrite Hcall.
  - apply NoDup_fst_map_to_list.
  - intros name. rewrite list_elem_of_fmap. split.
    + intros ([k v] & -> & Hkv). apply elem_of_map_to_list in Hkv. by exists v.
    + intros [v Hv]. exists (name, v). split; [done |]. by apply elem_of_map_to_list.
Qed.


(** No route changes the globals of [user_service.py]. *)
Lemma path_operation_globals (p : Process) (r : router.Request) :
  globals (snd (router.path_operation p r)) = globals p.
Proof.
  unfold router.path_operation.
  destruct (router.call r) as [req | req | req | n s d u pw | | n | | b]; try done.
  - unfold controllers.register_user. by destruct (UserService.register_user _ _ _ _ _).
  - unfold controllers.reset_password. by destruct (UserService.reset_password _ _ _ _ _).
  - unfold controllers.create_database.
    by destruct (DatabaseService.create_database _ _ _ _ _ _).
  - unfold controllers.delete_database. by destruct (DatabaseService.delete_database _ _).
  - destruct (AskQueryRequest.parse (CONNECTION_STRINGS p) b) as [req | e]; [| done].
    unfold controllers.ask_question. by destruct (DatabaseAgent.__init__ _ _ _ _ _).
Qed.

Lemma serve_globals (p : Process) (r : router.Request) :
  globals (snd (router.serve p r)) = globals p.
Proof.
  unfold router.serve. destruct (router.solve_dependencies _ p r); [| done].
  rewrite <- (path_operation_globals p r). by destruct (router.path_operation p r).
Qed.

Lemma serve_all_globals (rs : list router.Request) (p : Process) :
  globals (snd (router.serve_all p rs)) = globals p.
Proof.
  revert p. induction rs as [| r rs IH]; intros p; simpl; [done |].
  rewrite <- (serve_globals p r), <- (IH (snd (router.serve p r))).
  destruct (router.serve p r) as [resp p']. simpl. by destruct (router.serve_all p' rs).
Qed.

(** X16: a token that login issued and whose [username] claim is not
    empty keeps opening the gated routes: after any sequence of requests
    -- a reset of that user's password included -- and at any time,
    [GET /models] with that token answers 200 with the four models of
    the allow-list. *)
Theorem login_token_opens_models (p : Process) (username password : string)
    (res : UserService.auth_result) (alg : string) (payload : gmap string jwt.claim)
    (sig : jwt.signature) (rs : list router.Request) (r : router.Request) :
  UserService.login_user (SECRET_KEY (globals p)) (engine p) username password = Ok res ->
  UserService.access_token res = jwt.Compact alg payload sig ->
  jwt.truthy_claim (payload !! "username") = true ->
  router.authorization r = Some (UserService.access_token res) ->
  router.call r = router.GET_models ->
  router.serve (snd (router.serve_all p rs)) r
  = ({| status_code := HTTP_200_OK;
        body := CList ["gpt-4o-mini"; "gpt-4-turbo"; "gpt-4"; "gpt-3.5-turbo"] |},
     snd (router.serve_all p rs)).
Proof.
  intros Hlogin Hcompact Hclaim Htoken Hcall.
  destruct (login_user_ok _ _ _ _ _ Hlogin) as (row & _ & _ & _ & ->).
  simpl in Hcompact, Htoken.
  injection Hcompact as <- <- <-. rewrite lookup_singleton_eq in Hclaim. simpl in Hclaim.
  assert (exists user,
            authenticate (snd (router.serve_all p rs)) (router.authorization r)
              (router.now r) = Ok user) as Hauth.
  { exists (jwt.JStr (sql.username row)).
    unfold authenticate. rewrite Htoken, serve_all_globals. simpl.
    by rewrite verify_token_issued, Hclaim. }
  rewrite serve_entered by (by right).
  unfold router.path_operation. by rewrite Hcall.
Qed.

(** X17: requests that the gateway refuses change nothing, whatever
    their route and however many they are: not the registry, not the
    environment, not the credential table.  This includes [/login], which
    is served without a token but never writes. *)
Theorem unauthenticated_requests_change_nothing (p : Process) (rs : list router.Request) :
  Forall (unauthenticated p) rs ->
  snd (router.serve_all p rs) = p.
Proof.
  induction rs as [| r rs IH]; intros Hall; simpl; [done |].
  apply Forall_cons in Hall as [[e He] Hrs].
  assert (snd (router.serve p r) = p) as Hsame.
  { destruct (router.call r) as [req | req | req | n s d u pw | | n | | b] eqn:Hcall;
      try (by rewrite (serve_refused p r e) by (by rewrite ?Hcall)).
    rewrite serve_entered by (left; by rewrite Hcall).
    unfold router.path_operation. by rewrite Hcall. }
  destruct (router.serve p r) as [resp p']. simpl in Hsame. subst p'.
  specialize (IH Hrs). by destruct (router.serve_all p rs).
Qed.

(** No request registers the empty name. *)
Lemma path_operation_names (p : Process) (r : router.Request) :
  CONNECTION_STRINGS p !! EmptyString = None ->
  CONNECTION_STRINGS (snd (router.path_operation p r)) !! EmptyString = None.
Proof.
  intros Hp. unfold router.path_operation.
  destruct (router.call r) as [req | req | req | n s d u pw | | n | | b]; try done.
  - unfold controllers.register_user. by destruct (UserService.register_user _ _ _ _ _).
  - unfold controllers.reset_password. by destruct (UserService.reset_password _ _ _ _ _).
  - unfold controllers.create_database.
    destruct (create_database_cases (CONNECTION_STRINGS p) n s d u pw)
      as [(_ & e & _ & ->) | [(_ & _ & e & _ & ->) | (Hb & _ & ->)]]; simpl; try done.
    rewrite lookup_insert_ne; [done |]. intros ->. done.
  - unfold controllers.delete_database.
    destruct (delete_database_cases (CONNECTION_STRINGS p) n)
      as [(_ & e & _ & ->) | (_ & _ & ->)]; simpl; [done |].
    rewrite lookup_delete_None. by right.
  - destruct (AskQueryRequest.parse (CONNECTION_STRINGS p) b) as [req | e]; [| done].
    unfold controllers.ask_question. by destruct (DatabaseAgent.__init__ _ _ _ _ _).
Qed.

(** X18: from start-up on and through every sequence of requests, the
    empty string is never a registered name. *)
Theorem registered_names_are_never_empty (inherited dotenv : gmap string string)
    (db : sql.engine) (p : Process) (rs : list router.Request) :
  startup inherited dotenv db = Ok p ->
  CONNECTION_STRINGS (snd (router.serve_all p rs)) !! EmptyString = None.
Proof.
  intros Hstart.
  assert (CONNECTION_STRINGS p !! EmptyString = None) as Hp.
  { revert Hstart. unfold startup.
    destruct (user_service_module _); simpl; [| done]. intros [= <-]. simpl.
    unfold DatabaseAgent.CONNECTION_STRINGS.
    rewrite !lookup_insert_ne by done. apply lookup_empty. }
  clear Hstart. revert p Hp.
  induction rs as [| r rs IH]; intros p Hp; simpl; [done |].
  assert (CONNECTION_STRINGS (snd (router.serve p r)) !! EmptyString = None) as Hstep.
  { unfold router.serve. destruct (router.solve_dependencies _ p r); [| done].
    pose proof (path_operation_names p r Hp).
    by destruct (router.path_operation p r). }
  specialize (IH _ Hstep).
  destruct (router.serve p r) as [resp p']. simpl in *.
  by destruct (router.serve_all p' rs).
Qed.

(** X19: a body of [/ask] that names its database and passes the request
    model is accepted by the agent's own validation as well, as long as
    the name is not the empty string: the database is registered and the
    model is one of the allow-list. *)
Theorem parsed_request_is_accepted (conns : gmap string string)
    (b : AskQueryRequest.body) (req : AskQueryRequest.t) (name : string) :
  AskQueryRequest.parse conns b = Ok req ->
  AskQueryRequest.body_db_name b = Some name ->
  name <> EmptyString ->
  AskQueryRequest.db_name req = name
  /\ is_Some (conns !! name)
  /\ AskQueryRequest.model req ∈ ModelProvider.AVAILABLE_MODELS
  /\ DatabaseAgent._validate_inputs conns (AskQueryRequest.db_name req)
       (AskQueryRequest.model req) = Ok tt.
Proof.
  intros Hparse Hdb Hname. revert Hparse.
  unfold AskQueryRequest.parse. rewrite Hdb.
  unfold AskQueryRequest.validate_db_name.
  destruct (dict_in name conns) eqn:Hin; simpl; [| done].
  destruct (match AskQueryRequest.body_model b with
            | Some v => AskQueryRequest.validate_model v
            | None => _
            end) as [m | e] eqn:Hm; simpl; [| done].
  intros [= <-]. simpl.
  assert (m ∈ ModelProvider.AVAILABLE_MODELS) as Hmodel.
  { destruct (AskQueryRequest.body_model b) as [v |].
    - unfold AskQueryRequest.validate_model in Hm.
      destruct (decide (v ∈ ModelProvider.AVAILABLE_MODELS)) as [Hv | Hv].
      + rewrite bool_decide_eq_true_2 in Hm by done. simpl in Hm. by injection Hm as <-.
      + by rewrite bool_decide_eq_false_2 in Hm.
    - injection Hm as <-. simpl. apply list_elem_of_here. }
  split; [done |]. split; [by apply dict_in_true |]. split; [done |].
  unfold DatabaseAgent._validate_inputs. rewrite Hin.
  apply truthy_true in Hname. rewrite Hname. simpl.
  assert (truthy m = true) as ->; [| done].
  unfold ModelProvider.AVAILABLE_MODELS in Hmodel.
  repeat (apply elem_of_cons in Hmodel as [-> | Hmodel]; [reflexivity |]).
  by apply not_elem_of_nil in Hmodel.
Qed.

(** X20: a body of [/ask] that omits [db_name] is given the default
    [CRM Reports] without validation.  While no database of that name is
    registered, an authenticated request with such a body is refused by
    the agent with status 500 (not 422), nothing is changed and an API
    key it supplies is not exported. *)
Theorem default_database_is_not_validated (p : Process) (r : router.Request)
    (b : AskQueryRequest.body) (req : AskQueryRequest.t) (acting : jwt.claim) :
  router.call r = router.POST_ask b ->
  authenticate p (router.authorization r) (router.now r) = Ok acting ->
  AskQueryRequest.body_db_name b = None ->
  AskQueryRequest.parse (CONNECTION_STRINGS p) b = Ok req ->
  CONNECTION_STRINGS p !! "CRM Reports" = None ->
  AskQueryRequest.db_name req = "CRM Reports"
  /\ status_code (fst (router.serve p r)) = HTTP_500_INTERNAL_SERVER_ERROR
  /\ snd (router.serve p r) = p.
Proof.
  intros Hcall Hauth Hdb Hparse Hfree.
  assert (AskQueryRequest.db_name req = "CRM Reports") as Hname.
  { revert Hparse. unfold AskQueryRequest.parse. rewrite Hdb. simpl.
    destruct (match AskQueryRequest.body_model b with
              | Some v => AskQueryRequest.validate_model v
              | None => _
              end); simpl; [| done].
    by intros [= <-]. }
  split; [done |].
  rewrite serve_entered by (right; by exists acting).
  unfold router.path_operation. rewrite Hcall, Hparse.
  unfold controllers.ask_question, DatabaseAgent.__init__, DatabaseAgent._validate_inputs.
  rewrite Hname. apply dict_in_false in Hfree. rewrite Hfree. simpl.
  split; [done | apply with_environ_id].
Qed.

End route_facts.

Lemma create_database_registers_and_answers_500_witness :
  status_code
    (fst (router.serve (QA := fixtures.echo_agent) fixtures.process
            (fixtures.request (Some fixtures.alice_token)
               (router.POST_create_database "Vendas" "10.0.0.5" "sales" "reader" "s3nha"))))
  = 500
  /\ snd (router.serve (QA := fixtures.echo_agent) fixtures.process
            (fixtures.request (Some fixtures.alice_token)
               (router.POST_create_database "Vendas" "10.0.0.5" "sales" "reader" "s3nha")))
     = with_connections fixtures.process
         (<["Vendas" := DatabaseService.connection_string "10.0.0.5" "sales" "reader" "s3nha"]>
            (CONNECTION_STRINGS fixtures.process)).
Proof.
  apply (create_database_registers_and_answers_500 (QA := fixtures.echo_agent)
           fixtures.process _ "Vendas" "10.0.0.5" "sales" "reader" "s3nha" (jwt.JStr "alice")).
  - reflexivity.
  - vm_compute. reflexivity.
  - reflexivity.
  - vm_compute. reflexivity.
Defined.

Lemma delete_database_answers_500_witness :
  status_code
    (fst (router.serve (QA := fixtures.echo_agent) fixtures.process
            (fixtures.request (Some fixtures.alice_token)
               (router.DELETE_delete_database "Banco de dados 2"))))
  = 500
  /\ snd (router.serve (QA := fixtures.echo_agent) fixtures.process
            (fixtures.request (Some fixtures.alice_token)
               (router.DELETE_delete_database "Banco de dados 2")))
     = with_connections fixtures.process
         (delete "Banco de dados 2" (CONNECTION_STRINGS fixtures.process)).
Proof.
  apply (delete_database_answers_500 (QA := fixtures.echo_agent) fixtures.process _
           "Banco de dados 2" (jwt.JStr "alice")).
  - reflexivity.
  - vm_compute. reflexivity.
  - discriminate.
Defined.

Lemma storage_failure_is_500_witness :
  status_code
    (fst (router.serve (QA := fixtures.echo_agent)
            (with_engine fixtures.process (sql.Engine [] false sql.case_insensitive))
            (fixtures.request None
               (router.POST_login {| LoginRequest.username := "alice";
                                     LoginRequest.password := "pw1" |}))))
  = 500.
Proof.
  apply (proj1 (storage_failure_is_500 (QA := fixtures.echo_agent)
                  (with_engine fixtures.process (sql.Engine [] false sql.case_insensitive))
                  (fixtures.request None
                     (router.POST_login {| LoginRequest.username := "alice";
                                           LoginRequest.password := "pw1" |}))
                  eq_refl)
           {| LoginRequest.username := "alice"; LoginRequest.password := "pw1" |}).
  reflexivity.
Defined.

Lemma databases_lists_the_registry_witness :
  exists names,
    router.serve (QA := fixtures.echo_agent) fixtures.process
      (fixtures.request (Some fixtures.alice_token) router.GET_databases)
    = ({| status_code := 200; body := CList names |}, fixtures.process)
    /\ NoDup names
    /\ forall name, name ∈ names <-> is_Some (CONNECTION_STRINGS fixtures.process !! name).
Proof.
  apply (databases_lists_the_registry (QA := fixtures.echo_agent) fixtures.process _
           (jwt.JStr "alice")).
  - reflexivity.
  - vm_compute. reflexivity.
Defined.

Lemma login_token_opens_models_witness :
  router.serve (QA := fixtures.echo_agent)
    (snd (router.serve_all (QA := fixtures.echo_agent) fixtures.process
            [fixtures.request (Some fixtures.alice_token)
               (router.POST_reset_password
                  {| ResetPasswordRequest.username := "alice";
                     ResetPasswordRequest.password := "n0va";
                     ResetPasswordRequest.confirm_password := "n0va" |})]))
    (fixtures.request (Some fixtures.alice_token) router.GET_models)
  = ({| status_code := 200;
        body := CList ["gpt-4o-mini"; "gpt-4-turbo"; "gpt-4"; "gpt-3.5-turbo"] |},
     snd (router.serve_all (QA := fixtures.echo_agent) fixtures.process
            [fixtures.request (Some fixtures.alice_token)
               (router.POST_reset_password
                  {| ResetPasswordRequest.username := "alice";
                     ResetPasswordRequest.password := "n0va";
                     ResetPasswordRequest.confirm_password := "n0va" |})])).
Proof.
  apply (login_token_opens_models (QA := fixtures.echo_agent) fixtures.process "ALICE " "pw1"
           {| UserService.access_token := fixtures.alice_token;
              UserService.token_type := "bearer" |}
           "HS256" {[ "username" := jwt.JStr "alice" ]}
           (jwt.HMAC "s3cr3t" "HS256" {[ "username" := jwt.JStr "alice" ]})).
  - vm_compute. reflexivity.
  - reflexivity.
  - vm_compute. reflexivity.
  - reflexivity.
  - reflexivity.
Defined.

Lemma unauthenticated_requests_change_nothing_witness :
  snd (router.serve_all (QA := fixtures.echo_agent) fixtures.process
         [fixtures.request None (router.DELETE_delete_database "Banco de dados 1");
          fixtures.request (Some fixtures.forged_expired_token)
            (router.POST_create_database "Vendas" "10.0.0.5" "sales" "reader" "s3nha");
          fixtures.request None
            (router.POST_login {| LoginRequest.username := "alice";
                                  LoginRequest.password := "pw1" |})])
  = fixtures.process.
Proof.
  apply (unauthenticated_requests_change_nothing (QA := fixtures.echo_agent)).
  repeat (apply Forall_cons; split; [eexists; vm_compute; reflexivity |]).
  apply Forall_nil_2.
Defined.

Lemma registered_names_are_never_empty_witness :
  CONNECTION_STRINGS
    (snd (router.serve_all (QA := fixtures.echo_agent)
            {| environ := fixtures.env_users_only;
               globals :=
                 {| SECRET_KEY := "s3cr3t";
                    users_db_uri :=
                      "mssql+pyodbc:///?odbc_connect=DRIVER%3D%7BSQL+Server%7D%3BSERVER%3Dlocalhost%3BDATABASE%3Dusers%3BTrusted_Connection%3Dyes%3B" |};
               CONNECTION_STRINGS := DatabaseAgent.CONNECTION_STRINGS fixtures.env_users_only;
               engine := fixtures.users |}
            [fixtures.request (Some fixtures.alice_token)
               (router.POST_create_database EmptyString "10.0.0.5" "sales" "reader" "s3nha")]))
  !! EmptyString = None.
Proof.
  apply (registered_names_are_never_empty (QA := fixtures.echo_agent)
           fixtures.env_users_only ∅ fixtures.users).
  vm_compute. reflexivity.
Defined.

Lemma parsed_request_is_accepted_witness :
  DatabaseAgent._validate_inputs (CONNECTION_STRINGS fixtures.process)
    "Banco de dados 1" "gpt-4" = Ok tt.
Proof.
  apply (parsed_request_is_accepted (CONNECTION_STRINGS fixtures.process)
           {| AskQueryRequest.body_question := "Quantos clientes?";
              AskQueryRequest.body_db_name := Some "Banco de dados 1";
              AskQueryRequest.body_model := Some "gpt-4";
              AskQueryRequest.body_api_key := None |}
           {| AskQueryRequest.question := "Quantos clientes?";
              AskQueryRequest.db_name := "Banco de dados 1";
              AskQueryRequest.model := "gpt-4";
              AskQueryRequest.api_key := None |}
           "Banco de dados 1").
  - vm_compute. reflexivity.
  - reflexivity.
  - discriminate.
Defined.

Lemma default_database_is_not_validated_witness :
  status_code
    (fst (router.serve (QA := fixtures.echo_agent) fixtures.process
            (fixtures.request (Some fixtures.alice_token)
               (router.POST_ask {| AskQueryRequest.body_question := "Quantos clientes?";
                                   AskQueryRequest.body_db_name := None;
                                   AskQueryRequest.body_model := None;
                                   AskQueryRequest.body_api_key := Some "sk-caller-1" |}))))
  = 500
  /\ snd (router.serve (QA := fixtures.echo_agent) fixtures.process
            (fixtures.request (Some fixtures.alice_token)
               (router.POST_ask {| AskQueryRequest.body_question := "Quantos clientes?";
                                   AskQueryRequest.body_db_name := None;
                                   AskQueryRequest.body_model := None;
                                   AskQueryRequest.body_api_key := Some "sk-caller-1" |})))
     = fixtures.process.
Proof.
  apply (default_database_is_not_validated (QA := fixtures.echo_agent) fixtures.process _
           {| AskQueryRequest.body_question := "Quantos clientes?";
              AskQueryRequest.body_db_name := None;
              AskQueryRequest.body_model := None;
              AskQueryRequest.body_api_key := Some "sk-caller-1" |}
           {| AskQueryRequest.question := "Quantos clientes?";
              AskQueryRequest.db_name := "CRM Reports";
              AskQueryRequest.model := "gpt-4o-mini";
              AskQueryRequest.api_key := Some "sk-caller-1" |}
           (jwt.JStr "alice")).
  - reflexivity.
  - vm_compute. reflexivity.
  - reflexivity.
  - vm_compute. reflexivity.
  - vm_compute. reflexivity.
Defined.

(** ** More on [/ask] *)

Section ask_facts.
Context `{QA : QueryAgent}.

Lemma parse_fields (conns : gmap string string) (b : AskQueryRequest.body)
    (req : AskQueryRequest.t) :
  AskQueryRequest.parse conns b = Ok req ->
  AskQueryRequest.question req = AskQueryRequest.body_question b.
Proof.
  unfold AskQueryRequest.parse.
  destruct (match AskQueryRequest.body_db_name b with
            | Some v => AskQueryRequest.validate_db_name conns v
            | None => _
            end); simpl; [| done].
  destruct (match AskQueryRequest.body_model b with
            | Some v => AskQueryRequest.validate_model v
            | None => _
            end); simpl; [| done].
  by intros [= <-].
Qed.

(** X23: an authenticated [/ask] whose body names a database that is not
    registered, or a model that is not in the allow-list, is answered 422
    before the agent is built: nothing is changed and an API key it
    supplies is not exported. *)
Theorem invalid_body_is_422 (p : Process) (r : router.Request)
    (b : AskQueryRequest.body) (acting : jwt.claim) :
  router.call r = router.POST_ask b ->
  authenticate p (router.authorization r) (router.now r) = Ok acting ->
  (exists name, AskQueryRequest.body_db_name b = Some name
                /\ CONNECTION_STRINGS p !! name = None)
  \/ (exists m, AskQueryRequest.body_model b = Some m
                /\ m ∉ ModelProvider.AVAILABLE_MODELS) ->
  status_code (fst (router.serve p r)) = HTTP_422_UNPROCESSABLE_ENTITY
  /\ snd (router.serve p r) = p.
Proof.
  intros Hcall Hauth Hbad.
  rewrite serve_entered by (right; by exists acting).
  unfold router.path_operation. rewrite Hcall.
  assert (exists e, AskQueryRequest.parse (CONNECTION_STRINGS p) b = Raise e) as [e ->];
    [| done].
  unfold AskQueryRequest.parse.
  destruct Hbad as [(name & -> & Hfree) | (m & Hm & Hnot)].
  - unfold AskQueryRequest.validate_db_name.
    apply dict_in_false in Hfree. rewrite Hfree. simpl. by eexists.
  - destruct (match AskQueryRequest.body_db_name b with
              | Some v => AskQueryRequest.validate_db_name (CONNECTION_STRINGS p) v
              | None => _
              end); simpl; [| by eexists].
    rewrite Hm. unfold AskQueryRequest.validate_model.
    rewrite bool_decide_eq_false_2 by done. simpl. by eexists.
Qed.

(** X24: an empty question is only noticed after the agent has been
    built.  An [/ask] request with an empty question that gets as far as
    building its agent is answered 500; the environment it leaves is the
    one the export of its API key produced, or the one it found when the
    request supplied no key or the assignment raised.  So a non-empty
    key that the environment accepts has been exported all the same. *)
Theorem empty_question_is_refused_late (p : Process) (r : router.Request)
    (b : AskQueryRequest.body) :
  router.call r = router.POST_ask b ->
  builds_agent p r b ->
  AskQueryRequest.body_question b = EmptyString ->
  status_code (fst (router.serve p r)) = HTTP_500_INTERNAL_SERVER_ERROR
  /\ environ (snd (router.serve p r))
     = match DatabaseAgent.export_api_key (AskQueryRequest.body_api_key b) (environ p) with
       | Ok environ' => environ'
       | Raise _ => environ p
       end
  /\ forall k,
       AskQueryRequest.body_api_key b = Some k ->
       k <> EmptyString ->
       os.assignable k = true ->
       os.getenv (environ (snd (router.serve p r))) "OPENAI_API_KEY" = Some k.
Proof.
  intros Hcall ([user Hauth] & req & Hparse & Hvalid) Hempty.
  assert (environ (snd (router.serve p r))
          = match DatabaseAgent.export_api_key (AskQueryRequest.body_api_key b)
                    (environ p) with
            | Ok environ' => environ'
            | Raise _ => environ p
            end) as Henv.
  { rewrite serve_entered by (right; by exists user). cbn [fst snd].
    unfold router.path_operation. rewrite Hcall, Hparse.
    by rewrite ask_question_environ, Hvalid, (parse_api_key _ _ _ Hparse). }
  split; [| split; [done |]].
  - rewrite serve_entered by (right; by exists user). cbn [fst snd].
    unfold router.path_operation. rewrite Hcall, Hparse.
    unfold controllers.ask_question.
    destruct (DatabaseAgent.__init__ _ _ _ _ _) as [[a | e] env]; simpl; [| done].
    unfold DatabaseAgent.ask_question.
    by rewrite (parse_fields _ _ _ Hparse), Hempty.
  - intros k Hkey Hk Hok. rewrite Henv, Hkey, export_api_key_supplied by done.
    apply lookup_insert_eq.
Qed.

End ask_facts.

Lemma invalid_body_is_422_witness :
  status_code
    (fst (router.serve (QA := fixtures.echo_agent) fixtures.process
            (fixtures.request (Some fixtures.alice_token)
               (router.POST_ask {| AskQueryRequest.body_question := "Quantos clientes?";
                                   AskQueryRequest.body_db_name := Some "Banco de dados 1";
                                   AskQueryRequest.body_model := Some "gpt-5";
                                   AskQueryRequest.body_api_key := Some "sk-caller-1" |}))))
  = 422
  /\ snd (router.serve (QA := fixtures.echo_agent) fixtures.process
            (fixtures.request (Some fixtures.alice_token)
               (router.POST_ask {| AskQueryRequest.body_question := "Quantos clientes?";
                                   AskQueryRequest.body_db_name := Some "Banco de dados 1";
                                   AskQueryRequest.body_model := Some "gpt-5";
                                   AskQueryRequest.body_api_key := Some "sk-caller-1" |})))
     = fixtures.process.
Proof.
  apply (invalid_body_is_422 (QA := fixtures.echo_agent) fixtures.process _
           {| AskQueryRequest.body_question := "Quantos clientes?";
              AskQueryRequest.body_db_name := Some "Banco de dados 1";
              AskQueryRequest.body_model := Some "gpt-5";
              AskQueryRequest.body_api_key := Some "sk-caller-1" |}
           (jwt.JStr "alice")).
  - reflexivity.
  - vm_compute. reflexivity.
  - right. exists "gpt-5". split; [reflexivity |].
    apply (bool_decide_unpack _). vm_compute. exact I.
Defined.

Lemma empty_question_is_refused_late_witness :
  status_code
    (fst (router.serve (QA := fixtures.echo_agent) fixtures.process
            (fixtures.request (Some fixtures.alice_token)
               (router.POST_ask {| AskQueryRequest.body_question := EmptyString;
                                   AskQueryRequest.body_db_name := Some "Banco de dados 1";
                                   AskQueryRequest.body_model := Some "gpt-4";
                                   AskQueryRequest.body_api_key := Some "sk-caller-1" |}))))
  = 500
  /\ os.getenv
       (environ
          (snd (router.serve (QA := fixtures.echo_agent) fixtures.process
                  (fixtures.request (Some fixtures.alice_token)
                     (router.POST_ask
                        {| AskQueryRequest.body_question := EmptyString;
                           AskQueryRequest.body_db_name := Some "Banco de dados 1";
                           AskQueryRequest.body_model := Some "gpt-4";
                           AskQueryRequest.body_api_key := Some "sk-caller-1" |})))))
       "OPENAI_API_KEY"
     = Some "sk-caller-1".
Proof.
  destruct (empty_question_is_refused_late (QA := fixtures.echo_agent) fixtures.process
              (fixtures.request (Some fixtures.alice_token)
                 (router.POST_ask
                    {| AskQueryRequest.body_question := EmptyString;
                       AskQueryRequest.body_db_name := Some "Banco de dados 1";
                       AskQueryRequest.body_model := Some "gpt-4";
                       AskQueryRequest.body_api_key := Some "sk-caller-1" |}))
              {| AskQueryRequest.body_question := EmptyString;
                 AskQueryRequest.body_db_name := Some "Banco de dados 1";
                 AskQueryRequest.body_model := Some "gpt-4";
                 AskQueryRequest.body_api_key := Some "sk-caller-1" |})
    as (Hstatus & _ & Hkey).
  - reflexivity.
  - split.
    + exists (jwt.JStr "alice"). vm_compute. reflexivity.
    + exists {| AskQueryRequest.question := EmptyString;
                AskQueryRequest.db_name := "Banco de dados 1";
                AskQueryRequest.model := "gpt-4";
                AskQueryRequest.api_key := Some "sk-caller-1" |}.
      split; vm_compute; reflexivity.
  - reflexivity.
  - split; [exact Hstatus |].
    apply (Hkey "sk-caller-1"); [reflexivity | discriminate | vm_compute; reflexivity].
Defined.
